(** * Cryostat cooldown thermal simulation: a shallow embedding

    The program is the script [Manchester_cryostat_cooldown.py]: an explicit
    Euler time-marching loop over three lumped thermal nodes (a 300 K
    reservoir and two cold stages).  The script computes in numpy's
    [float64]; here a [float64] is Rocq's primitive binary64 [float], so
    [+], [-], [*], [/] and [<] below are the IEEE operations the script
    performs.  numpy arrays are lists, [np.append a v] is [a ++ [v]] and
    [a[-1]] is the last element (an [IndexError] on an empty array).

    Three operations come from libraries outside the repository and are
    taken as parameters: [np.log10], the power operator [**] on [float64]
    and [scipy.interpolate.interp2d].  None of them raises on a [float64]
    argument (numpy warns and returns [inf] or [nan]); only the
    construction of an interpolant can fail.  An interpolant returns a
    one-element array, which the arithmetic and [np.append] treat as its
    element. *)

From Stdlib Require Import Floats ZArith NArith List Bool Lia.
Import ListNotations.

Set Warnings "-inexact-float".
Local Open Scope float_scope.

(** ** Exceptions and the state/exception monad *)

Inductive exn : Set :=
| IndexError   (* [a[-1]] on an empty array *)
| ValueError.  (* raised by the [interp2d] constructor *)

Inductive res (A : Type) : Type :=
| Ok (a : A)
| Raise (e : exn).
Arguments Ok {A} a.
Arguments Raise {A} e.

(** The module-level arrays the solver loop extends. *)
Record state : Type := mkState {
  globaltime    : list float;
  T_0           : list float;
  T_1           : list float;
  T_2           : list float;
  Qdot1_record  : list float;
  Qdot2_record  : list float;
  QRdot1_record : list float;
  QRdot2_record : list float
}.

Definition M (A : Type) : Type := state -> res (A * state).

Definition ret {A} (a : A) : M A := fun st => Ok (a, st).

Definition bind {A B} (m : M A) (k : A -> M B) : M B :=
  fun st => match m st with
            | Ok (a, st') => k a st'
            | Raise e => Raise e
            end.

Declare Scope cryo_scope.
Delimit Scope cryo_scope with cryo.
Notation "x <- m ;; k" := (bind m (fun x => k))
  (at level 61, m at next level, right associativity) : cryo_scope.
Notation "m ;; k" := (bind m (fun _ => k))
  (at level 61, right associativity) : cryo_scope.
Local Open Scope cryo_scope.

(** ** numpy arrays *)

(** [a[-1]] as an option: [None] where Python raises [IndexError]. *)
Fixpoint last_opt (a : list float) : option float :=
  match a with
  | [] => None
  | [x] => Some x
  | _ :: a' => last_opt a'
  end.

(** [np.append(a, v)] *)
Definition np_append (a : list float) (v : float) : list float := a ++ [v].

(** Reading [arr[-1]] of one of the arrays of the state. *)
Definition idx_m1 (arr : state -> list float) : M float :=
  fun st => match last_opt (arr st) with
            | Some x => Ok (x, st)
            | None => Raise IndexError
            end.

(** [arr = np.append(arr, v)], one definition per array. *)
Definition append_globaltime (v : float) : M unit := fun st =>
  Ok (tt, mkState (np_append (globaltime st) v) (T_0 st) (T_1 st) (T_2 st)
            (Qdot1_record st) (Qdot2_record st) (QRdot1_record st) (QRdot2_record st)).
Definition append_T_0 (v : float) : M unit := fun st =>
  Ok (tt, mkState (globaltime st) (np_append (T_0 st) v) (T_1 st) (T_2 st)
            (Qdot1_record st) (Qdot2_record st) (QRdot1_record st) (QRdot2_record st)).
Definition append_T_1 (v : float) : M unit := fun st =>
  Ok (tt, mkState (globaltime st) (T_0 st) (np_append (T_1 st) v) (T_2 st)
            (Qdot1_record st) (Qdot2_record st) (QRdot1_record st) (QRdot2_record st)).
Definition append_T_2 (v : float) : M unit := fun st =>
  Ok (tt, mkState (globaltime st) (T_0 st) (T_1 st) (np_append (T_2 st) v)
            (Qdot1_record st) (Qdot2_record st) (QRdot1_record st) (QRdot2_record st)).
Definition append_Qdot1_record (v : float) : M unit := fun st =>
  Ok (tt, mkState (globaltime st) (T_0 st) (T_1 st) (T_2 st)
            (np_append (Qdot1_record st) v) (Qdot2_record st) (QRdot1_record st) (QRdot2_record st)).
Definition append_Qdot2_record (v : float) : M unit := fun st =>
  Ok (tt, mkState (globaltime st) (T_0 st) (T_1 st) (T_2 st)
            (Qdot1_record st) (np_append (Qdot2_record st) v) (QRdot1_record st) (QRdot2_record st)).
Definition append_QRdot1_record (v : float) : M unit := fun st =>
  Ok (tt, mkState (globaltime st) (T_0 st) (T_1 st) (T_2 st)
            (Qdot1_record st) (Qdot2_record st) (np_append (QRdot1_record st) v) (QRdot2_record st)).
Definition append_QRdot2_record (v : float) : M unit := fun st =>
  Ok (tt, mkState (globaltime st) (T_0 st) (T_1 st) (T_2 st)
            (Qdot1_record st) (Qdot2_record st) (QRdot1_record st) (np_append (QRdot2_record st) v)).

(** ** External libraries *)

(** [log10] is [np.log10] on a [float64] scalar, [pow x y] is [x ** y] on
    [float64] (integer operands are converted exactly), and [interp2d x y z]
    is [interpolate.interp2d(x, y, z, kind='linear')]: it either raises or
    returns the interpolant, a function of the two query temperatures. *)
Record Libs : Type := mkLibs {
  log10    : float -> float;
  pow      : float -> float -> float;
  interp2d : list float -> list float -> list float ->
             res (float -> float -> float)
}.

(** ** Configuration: the literals of the script *)

Record config : Type := mkConfig {
  endtime   : float;  (* secs, after [endtime = endtime * 3600] *)
  timestep  : float;  (* secs *)
  stefboltz : float;  (* W/m2.K4 *)
  T_0_init  : float;  (* K *)
  A_1       : float;  (* m2 *)
  eps1      : float;
  m_1       : float;  (* kg *)
  T_1_init  : float;  (* K *)
  A_2       : float;  (* m2 *)
  eps2      : float;
  m_2       : float;  (* kg *)
  T_2_init  : float;  (* K *)
  T_PTC1    : list float;
  T_PTC2    : list float;
  Q_PTC1    : list float;
  Q_PTC2    : list float
}.

(** The values written in the script (lines 33-83). *)
Definition reference_config : config := {|
  endtime   := 5 * 3600;
  timestep  := 0.1;
  stefboltz := 5.67E-8;
  T_0_init  := 300.0;
  A_1 := 0.5;  eps1 := 0.01;  m_1 := 12;  T_1_init := 300.0;
  A_2 := 0.5;  eps2 := 0.01;  m_2 := 15;  T_2_init := 300.0;
  T_PTC1 := [31.42; 42.26; 41.72; 41.72; 41.72; 42.26; 49.85; 57.43; 59.06;
             59.06; 60.68; 62.31; 75.31; 85.06; 89.40; 100.23; 115.94; 122.99;
             114.32; 141.41; 153.33; 154.95; 163.08; 175.54; 216.18; 218.89;
             236.76; 246.52; 250.85; 286.61; 295.82; 303.95; 308.28];
  T_PTC2 := [2.51; 33.52; 76.26; 144.97; 248.04; 292.46; 2.52; 36.03; 78.77;
             144.97; 224.58; 310.06; 3.35; 40.22; 79.61; 134.08; 201.12; 282.40;
             5.03; 51.12; 97.21; 151.68; 222.07; 315.08; 41.07; 82.96; 150.00;
             232.122; 320.11; 70.39; 130.72; 204.47; 284.92];
  Q_PTC1 := [0.0; 0.0; 0.0; 0.0; 0.0; 0.0; 50.0; 50.0; 50.0; 50.0; 50.0; 50.0;
             100.0; 100.0; 100.0; 100.0; 100.0; 100.0; 150.0; 150.0; 150.0;
             150.0; 150.0; 150.0; 200.0; 200.0; 200.0; 200.0; 200.0; 250.0;
             250.0; 250.0; 250.0];
  Q_PTC2 := [0.0; 25.0; 50.0; 75.0; 100.0; 125.0; 0.0; 25.0; 50.0; 75.0; 100.0;
             125.0; 0.0; 25.0; 50.0; 75.0; 100.0; 125.0; 0.0; 25.0; 50.0; 75.0;
             100.0; 125.0; 0.0; 25.0; 50.0; 75.0; 100.0; 0.0; 25.0; 50.0; 75.0]
|}.

(** The arrays before the loop (lines 36-74): the time axis starts at
    [0.00] and the four heat-flow records at [0.00], whatever the
    configuration. *)
Definition init (cfg : config) : state := {|
  globaltime    := [0.00];
  T_0           := [T_0_init cfg];
  T_1           := [T_1_init cfg];
  T_2           := [T_2_init cfg];
  Qdot1_record  := [0.00];
  Qdot2_record  := [0.00];
  QRdot1_record := [0.00];
  QRdot2_record := [0.00]
|}.

(** ** The solver *)

Inductive outcome : Type :=
| Finished (st : state)    (* the loop guard became false *)
| Unfinished (st : state)  (* still looping when the fuel ran out *)
| Failed (e : exn).        (* an exception escaped *)

Section Solver.

Variable L : Libs.
Variable cfg : config.

(** The two interpolants built before the loop (lines 87-88). *)
Variables Q_PTC1_interp_func Q_PTC2_interp_func : float -> float -> float.

(** Line 106. *)
Definition cp_1 : M float :=
  t <- idx_m1 T_1 ;;
  ret (pow L 10 ((-1.91844) + (-0.15973 * log10 L t)
                 + (8.61013 * (pow L (log10 L t) 2))
                 + (-18.99640 * (pow L (log10 L t) 3))
                 + (21.96610 * (pow L (log10 L t) 4))
                 + (-12.73280 * (pow L (log10 L t) 5)
                    + (3.54322 * (pow L (log10 L t) 6)))
                 + (-0.37970 * (pow L (log10 L t) 7)))).

(** Line 111. *)
Definition cp_2 : M float :=
  t <- idx_m1 T_2 ;;
  ret (pow L 10 ((-1.91844) + (-0.15973 * log10 L t)
                 + (8.61013 * (pow L (log10 L t) 2))
                 + (-18.99640 * (pow L (log10 L t) 3))
                 + (21.96610 * (pow L (log10 L t) 4))
                 + (-12.73280 * (pow L (log10 L t) 5)
                    + (3.54322 * (pow L (log10 L t) 6)))
                 + (-0.37970 * (pow L (log10 L t) 7)))).

(** Lines 107 and 112: [Cp_1 = cp_1 * m_1], [Cp_2 = cp_2 * m_2]. *)
Definition Cp_1 : M float := c <- cp_1 ;; ret (c * m_1 cfg).
Definition Cp_2 : M float := c <- cp_2 ;; ret (c * m_2 cfg).

(** One iteration of the loop body (lines 106-175), statement by
    statement.  Scalars assigned once per iteration are bound once. *)
Definition step : M unit :=
  Cp1 <- Cp_1 ;;
  Cp2 <- Cp_2 ;;
  Qdot1 <- (t1 <- idx_m1 T_1 ;; t2 <- idx_m1 T_2 ;;
            ret (Q_PTC1_interp_func t1 t2)) ;;
  let Q1 := Qdot1 * timestep cfg in
  append_Qdot1_record Qdot1 ;;
  QRdot1 <- (t0 <- idx_m1 T_0 ;; t1 <- idx_m1 T_1 ;;
             ret (A_1 cfg * eps1 cfg * stefboltz cfg * (pow L t0 4 - pow L t1 4))) ;;
  let QR1 := QRdot1 * timestep cfg in
  append_QRdot1_record QRdot1 ;;
  Qdot2 <- (t1 <- idx_m1 T_1 ;; t2 <- idx_m1 T_2 ;;
            ret (Q_PTC2_interp_func t1 t2)) ;;
  let Q2 := Qdot2 * timestep cfg in
  append_Qdot2_record Qdot2 ;;
  QRdot2 <- (t1 <- idx_m1 T_1 ;; t2 <- idx_m1 T_2 ;;
             ret (A_2 cfg * eps2 cfg * stefboltz cfg * (pow L t1 4 - pow L t2 4))) ;;
  let QR2 := QRdot2 * timestep cfg in
  append_QRdot2_record QRdot2 ;;
  T_0_new <- idx_m1 T_0 ;;
  append_T_0 T_0_new ;;
  T_1_new <- (t1 <- idx_m1 T_1 ;; ret (t1 + ((- Q1 + QR1 - QR2) / Cp1))) ;;
  append_T_1 T_1_new ;;
  T_2_new <- (t2 <- idx_m1 T_2 ;; ret (t2 + ((- Q2 + QR1) / Cp2))) ;;
  append_T_2 T_2_new ;;
  time_new <- (t <- idx_m1 globaltime ;; ret (t + timestep cfg)) ;;
  append_globaltime time_new.

(** The loop of line 94, [while globaltime[-1] < endtime], with fuel. *)
Fixpoint solver (fuel : nat) (st : state) : outcome :=
  match last_opt (globaltime st) with
  | None => Failed IndexError
  | Some t =>
      if t <? endtime cfg then
        match fuel with
        | O => Unfinished st
        | S fuel' =>
            match step st with
            | Ok (_, st') => solver fuel' st'
            | Raise e => Failed e
            end
        end
      else Finished st
  end.

End Solver.

(** The script up to the end of the loop: the interpolants are built
    (lines 87-88), then the loop runs from the initial arrays.  What
    follows the loop (lines 185-218) only plots the arrays, after dividing
    the time axis by 3600 for display, and is not modelled. *)
Definition script (L : Libs) (cfg : config) (fuel : nat) : outcome :=
  match interp2d L (T_PTC1 cfg) (T_PTC2 cfg) (Q_PTC1 cfg) with
  | Raise e => Failed e
  | Ok f1 =>
      match interp2d L (T_PTC1 cfg) (T_PTC2 cfg) (Q_PTC2 cfg) with
      | Raise e => Failed e
      | Ok f2 => solver L cfg f1 f2 fuel (init cfg)
      end
  end.

(** ** The state of a run *)

(** What an observer of an outcome sees: the arrays at the end of the loop
    or, when the fuel ran out, at the head of the next iteration. *)
Definition observed (o : outcome) (st : state) : Prop :=
  o = Finished st \/ o = Unfinished st.

Section Reachable.

Variable L : Libs.
Variable cfg : config.
Variables f1 f2 : float -> float -> float.

(** States at the head of the loop: the initial arrays, and the arrays
    after an iteration entered with a true guard. *)
Inductive reachable : state -> Prop :=
| reach_init : reachable (init cfg)
| reach_step st st' t :
    reachable st ->
    last_opt (globaltime st) = Some t ->
    (t <? endtime cfg) = true ->
    step L cfg f1 f2 st = Ok (tt, st') ->
    reachable st'.

End Reachable.

(** ** The component formulas of the specification *)

Section Formulas.

Variable L : Libs.

(** Material Model: lines 106 and 111 as a function of the temperature. *)
Definition specificHeat (T : float) : float :=
  pow L 10 ((-1.91844) + (-0.15973 * log10 L T)
            + (8.61013 * (pow L (log10 L T) 2))
            + (-18.99640 * (pow L (log10 L T) 3))
            + (21.96610 * (pow L (log10 L T) 4))
            + (-12.73280 * (pow L (log10 L T) 5)
               + (3.54322 * (pow L (log10 L T) 6)))
            + (-0.37970 * (pow L (log10 L T) 7))).

Definition heatCapacity (T mass : float) : float := specificHeat T * mass.

(** Radiative Link: [area * emissivity * sigma * (T_hot^4 - T_cold^4)]. *)
Definition radiativePower (hot cold area emissivity sigma : float) : float :=
  area * emissivity * sigma * (pow L hot 4 - pow L cold 4).

(** The coefficients of the polynomial in [log10 T], constant term first. *)
Definition coefficients : list float :=
  [-1.91844; -0.15973; 8.61013; -18.99640; 21.96610; -12.73280; 3.54322; -0.37970].

Definition float_of_nat (n : nat) : float := Nat.iter n (fun x => x + 1) 0.

(** The term of degree [k]: the script writes the constant alone, the
    linear term as [c * x] and the others as [c * x ** k]. *)
Definition monomial (k : nat) (c x : float) : float :=
  match k with
  | O => c
  | S O => c * x
  | _ => c * pow L x (float_of_nat k)
  end.

Fixpoint poly_terms (k : nat) (cs : list float) (x : float) : list float :=
  match cs with
  | [] => []
  | c :: cs' => monomial k c x :: poly_terms (S k) cs' x
  end.

End Formulas.

(** [bracketed_sum ts s]: [s] is the floating-point sum of the terms [ts],
    taken in their order under some placement of parentheses. *)
Inductive bracketed_sum : list float -> float -> Prop :=
| bs_term x : bracketed_sum [x] x
| bs_add ts1 ts2 x y :
    bracketed_sum ts1 x -> bracketed_sum ts2 y ->
    bracketed_sum (ts1 ++ ts2) (x + y).

(** The arrays after one iteration entered with last entries [t] (time),
    [t0], [t1], [t2] (temperatures). *)
Definition advance (L : Libs) (cfg : config) (f1 f2 : float -> float -> float)
    (t t0 t1 t2 : float) (st : state) : state :=
  let Qdot1 := f1 t1 t2 in
  let Qdot2 := f2 t1 t2 in
  let QRdot1 := radiativePower L t0 t1 (A_1 cfg) (eps1 cfg) (stefboltz cfg) in
  let QRdot2 := radiativePower L t1 t2 (A_2 cfg) (eps2 cfg) (stefboltz cfg) in
  let Q1 := Qdot1 * timestep cfg in
  let Q2 := Qdot2 * timestep cfg in
  let QR1 := QRdot1 * timestep cfg in
  let QR2 := QRdot2 * timestep cfg in
  {| globaltime    := globaltime st ++ [t + timestep cfg];
     T_0           := T_0 st ++ [t0];
     T_1           := T_1 st ++ [t1 + (- Q1 + QR1 - QR2) / heatCapacity L t1 (m_1 cfg)];
     T_2           := T_2 st ++ [t2 + (- Q2 + QR1) / heatCapacity L t2 (m_2 cfg)];
     Qdot1_record  := Qdot1_record st ++ [Qdot1];
     Qdot2_record  := Qdot2_record st ++ [Qdot2];
     QRdot1_record := QRdot1_record st ++ [QRdot1];
     QRdot2_record := QRdot2_record st ++ [QRdot2] |}.

(** ** The time axis on its own *)

(** The timestamps depend on [timestep] alone: [axis dt n t] is [t]
    followed by [n] accumulated sums. *)
Fixpoint axis (dt : float) (n : nat) (t : float) : list float :=
  t :: match n with
       | O => []
       | S n' => axis dt n' (t + dt)
       end.

(** The number of iterations the loop makes from timestamp [t], when it
    makes no more than [fuel]. *)
Fixpoint count_steps (dt tend : float) (fuel : nat) (t : float) : option nat :=
  if t <? tend then
    match fuel with
    | O => None
    | S fuel' => option_map S (count_steps dt tend fuel' (t + dt))
    end
  else Some O.

(** [count_steps] with an accumulator, for long runs. *)
Fixpoint count_acc (dt tend : float) (fuel : nat) (t : float) (acc : N) : option N :=
  if t <? tend then
    match fuel with
    | O => None
    | S fuel' => count_acc dt tend fuel' (t + dt) (N.succ acc)
    end
  else Some acc.

(** ** Stand-ins for the external libraries

    Executable stand-ins used to run the model on concrete configurations.
    [log10] and [exp10] are series approximations accurate to a few units
    in the last place, with the values numpy returns at [0], at negative
    numbers, at infinities and at NaN; [pow] covers the calls the script
    makes ([x ** k] for [k = 2 .. 7] and [10 ** y]); [zero_map] is an
    interpolant constructor that rejects sample arrays of different
    lengths and otherwise returns the map that is 0 W everywhere. *)
Module Standin.

Definition ln2 : float := 0.6931471805599453.
Definition ln10 : float := 2.302585092994046.

Definition float_of_Z (z : Z) : float :=
  if (z <? 0)%Z then - of_uint63 (Uint63.of_Z (- z))
  else of_uint63 (Uint63.of_Z z).

(** Floor of a finite float. *)
Definition floor_Z (x : float) : Z :=
  match Prim2SF x with
  | S754_finite s m e =>
      let v := if s then Z.neg m else Z.pos m in
      if (0 <=? e)%Z then (v * 2 ^ e)%Z else (v / 2 ^ (- e))%Z
  | _ => 0%Z
  end.

Fixpoint atanh_series (n : nat) (z2 k zpow acc : float) : float :=
  match n with
  | O => acc
  | S n' => atanh_series n' z2 (k + 2) (zpow * z2) (acc + zpow / k)
  end.

Fixpoint exp_series (n : nat) (r k term acc : float) : float :=
  match n with
  | O => acc
  | S n' => exp_series n' r (k + 1) (term * r / k) (acc + term)
  end.

Definition log10 (x : float) : float :=
  if is_nan x then nan
  else if x <? 0 then nan
  else if x =? 0 then neg_infinity
  else if x =? infinity then infinity
  else
    let '(m, e) := Z.frexp x in
    let z := (m - 1) / (m + 1) in
    (2 * atanh_series 20 (z * z) 1 z 0 + float_of_Z e * ln2) / ln10.

Definition exp10 (p : float) : float :=
  if is_nan p then nan
  else if 400 <? p then infinity
  else if p <? -400 then 0
  else
    let y := p * (ln10 / ln2) in
    let k := floor_Z (y + 0.5) in
    let r := (y - float_of_Z k) * ln2 in
    Z.ldexp (exp_series 25 r 1 1 0) k.

Definition pow (x y : float) : float :=
  if y =? 2 then x * x
  else if y =? 3 then x * x * x
  else if y =? 4 then x * x * x * x
  else if y =? 5 then x * x * x * x * x
  else if y =? 6 then x * x * x * x * x * x
  else if y =? 7 then x * x * x * x * x * x * x
  else if x =? 10 then exp10 y
  else nan.

Definition zero_map (x y z : list float) : res (float -> float -> float) :=
  if (length x =? length y)%nat && (length x =? length z)%nat
  then Ok (fun _ _ => 0)
  else Raise ValueError.

Definition libs : Libs := mkLibs log10 pow zero_map.

End Standin.

(** ** Configurations used below *)

(** The script's values with another end time. *)
Definition with_endtime (tend : float) (c : config) : config :=
  mkConfig tend (timestep c) (stefboltz c) (T_0_init c)
           (A_1 c) (eps1 c) (m_1 c) (T_1_init c)
           (A_2 c) (eps2 c) (m_2 c) (T_2_init c)
           (T_PTC1 c) (T_PTC2 c) (Q_PTC1 c) (Q_PTC2 c).

(** [dt = 0.1 s], end time 10 s, all nodes at 300 K, masses 12 kg and
    15 kg, areas 0.5 m2, emissivities 0.01. *)
Definition scenario_config : config := with_endtime 10 reference_config.

(** Stage 1 starting at 0 K. *)
Definition zero_kelvin_config : config :=
  mkConfig 10 0.1 5.67E-8 300.0 0.5 0.01 12 0.0 0.5 0.01 15 300.0
           (T_PTC1 reference_config) (T_PTC2 reference_config)
           (Q_PTC1 reference_config) (Q_PTC2 reference_config).

(** Stage 1 without mass. *)
Definition massless_config : config :=
  mkConfig 10 0.1 5.67E-8 300.0 0.5 0.01 0 300.0 0.5 0.01 15 300.0
           (T_PTC1 reference_config) (T_PTC2 reference_config)
           (Q_PTC1 reference_config) (Q_PTC2 reference_config).

(** A time step of 0 s. *)
Definition frozen_clock_config : config :=
  mkConfig 10 0 5.67E-8 300.0 0.5 0.01 12 300.0 0.5 0.01 15 300.0
           (T_PTC1 reference_config) (T_PTC2 reference_config)
           (Q_PTC1 reference_config) (Q_PTC2 reference_config).

(** Sample arrays of different lengths. *)
Definition ragged_config : config :=
  mkConfig 10 0.1 5.67E-8 300.0 0.5 0.01 12 300.0 0.5 0.01 15 300.0
           [31.42; 42.26; 41.72] [2.51; 33.52] [0.0; 0.0; 0.0] [0.0; 25.0; 50.0].

(** ** The loop body, append by append *)

(** The scalars the body assigns and reads again further down.  Each
    iteration assigns every one of them before it reads it, so their
    values from the previous iteration play no part and [no_locals] stands
    for them at the head of the body. *)
Record locals : Type := mkLocals {
  v_Cp_1 : float;
  v_Cp_2 : float;
  v_Q1   : float;
  v_QR1  : float;
  v_Q2   : float;
  v_QR2  : float
}.

Definition no_locals : locals := mkLocals nan nan nan nan nan nan.

Section Body.

Variable L : Libs.
Variable cfg : config.
Variables Q_PTC1_interp_func Q_PTC2_interp_func : float -> float -> float.

(** Lines 106-128, up to the append to [Qdot1_record]. *)
Definition stmts_106_128 (v : locals) : M locals :=
  Cp1 <- Cp_1 L cfg ;;
  Cp2 <- Cp_2 L cfg ;;
  Qdot1 <- (t1 <- idx_m1 T_1 ;; t2 <- idx_m1 T_2 ;;
            ret (Q_PTC1_interp_func t1 t2)) ;;
  append_Qdot1_record Qdot1 ;;
  ret (mkLocals Cp1 Cp2 (Qdot1 * timestep cfg) (v_QR1 v) (v_Q2 v) (v_QR2 v)).

(** Lines 132-134, up to the append to [QRdot1_record]. *)
Definition stmts_132_134 (v : locals) : M locals :=
  QRdot1 <- (t0 <- idx_m1 T_0 ;; t1 <- idx_m1 T_1 ;;
             ret (A_1 cfg * eps1 cfg * stefboltz cfg * (pow L t0 4 - pow L t1 4))) ;;
  append_QRdot1_record QRdot1 ;;
  ret (mkLocals (v_Cp_1 v) (v_Cp_2 v) (v_Q1 v) (QRdot1 * timestep cfg)
                (v_Q2 v) (v_QR2 v)).

(** Lines 140-142, up to the append to [Qdot2_record]. *)
Definition stmts_140_142 (v : locals) : M locals :=
  Qdot2 <- (t1 <- idx_m1 T_1 ;; t2 <- idx_m1 T_2 ;;
            ret (Q_PTC2_interp_func t1 t2)) ;;
  append_Qdot2_record Qdot2 ;;
  ret (mkLocals (v_Cp_1 v) (v_Cp_2 v) (v_Q1 v) (v_QR1 v)
                (Qdot2 * timestep cfg) (v_QR2 v)).

(** Lines 146-148, up to the append to [QRdot2_record]. *)
Definition stmts_146_148 (v : locals) : M locals :=
  QRdot2 <- (t1 <- idx_m1 T_1 ;; t2 <- idx_m1 T_2 ;;
             ret (A_2 cfg * eps2 cfg * stefboltz cfg * (pow L t1 4 - pow L t2 4))) ;;
  append_QRdot2_record QRdot2 ;;
  ret (mkLocals (v_Cp_1 v) (v_Cp_2 v) (v_Q1 v) (v_QR1 v) (v_Q2 v)
                (QRdot2 * timestep cfg)).

(** Lines 156-157. *)
Definition stmts_156_157 (v : locals) : M locals :=
  T_0_new <- idx_m1 T_0 ;;
  append_T_0 T_0_new ;;
  ret v.

(** Lines 162-163. *)
Definition stmts_162_163 (v : locals) : M locals :=
  T_1_new <- (t1 <- idx_m1 T_1 ;;
              ret (t1 + ((- v_Q1 v + v_QR1 v - v_QR2 v) / v_Cp_1 v))) ;;
  append_T_1 T_1_new ;;
  ret v.

(** Lines 167-168. *)
Definition stmts_167_168 (v : locals) : M locals :=
  T_2_new <- (t2 <- idx_m1 T_2 ;;
              ret (t2 + ((- v_Q2 v + v_QR1 v) / v_Cp_2 v))) ;;
  append_T_2 T_2_new ;;
  ret v.

(** Lines 174-175. *)
Definition stmts_174_175 (v : locals) : M locals :=
  time_new <- (t <- idx_m1 globaltime ;; ret (t + timestep cfg)) ;;
  append_globaltime time_new ;;
  ret v.

(** The body as its eight groups of statements, each ending with one
    append. *)
Definition body_blocks : list (locals -> M locals) :=
  [stmts_106_128; stmts_132_134; stmts_140_142; stmts_146_148;
   stmts_156_157; stmts_162_163; stmts_167_168; stmts_174_175].

Fixpoint run_blocks (bs : list (locals -> M locals)) (v : locals) : M locals :=
  match bs with
  | [] => ret v
  | b :: bs' => v' <- b v ;; run_blocks bs' v'
  end.

(** The body run up to and including its [k]-th append. *)
Definition body_prefix (k : nat) : M locals :=
  run_blocks (firstn k body_blocks) no_locals.

End Body.

(** The arrays in the order the body appends to them. *)
Definition body_order : list (state -> list float) :=
  [Qdot1_record; QRdot1_record; Qdot2_record; QRdot2_record;
   T_0; T_1; T_2; globaltime].

(** [st'] is [st] with one entry appended to the first [k] arrays of
    [body_order], the others untouched. *)
Definition partly_extended (k : nat) (st st' : state) : Prop :=
  forall i arr,
    nth_error body_order i = Some arr ->
    if (i <? k)%nat then exists v, arr st' = arr st ++ [v]
    else arr st' = arr st.

(** ** Predicates on states *)

(** All eight arrays have [n] entries. *)
Definition lengths (st : state) (n : nat) : Prop :=
  length (globaltime st) = n /\ length (T_0 st) = n /\
  length (T_1 st) = n /\ length (T_2 st) = n /\
  length (Qdot1_record st) = n /\ length (Qdot2_record st) = n /\
  length (QRdot1_record st) = n /\ length (QRdot2_record st) = n.

(** [st'] is [st] with one entry appended to each array. *)
Definition extends_by_one (st st' : state) : Prop :=
  (exists v, globaltime st' = globaltime st ++ [v]) /\
  (exists v, T_0 st' = T_0 st ++ [v]) /\
  (exists v, T_1 st' = T_1 st ++ [v]) /\
  (exists v, T_2 st' = T_2 st ++ [v]) /\
  (exists v, Qdot1_record st' = Qdot1_record st ++ [v]) /\
  (exists v, Qdot2_record st' = Qdot2_record st ++ [v]) /\
  (exists v, QRdot1_record st' = QRdot1_record st ++ [v]) /\
  (exists v, QRdot2_record st' = QRdot2_record st ++ [v]).

(** [g] evaluated at each row of two series but the last. *)
Definition evals (g : float -> float -> float) (a b : list float) : list float :=
  map (fun p => g (fst p) (snd p)) (combine (removelast a) (removelast b)).

(** All nodes at 300 K on every row, and no heat flow recorded. *)
Definition uniform (g : list float) (n : nat) : state :=
  {| globaltime := g;
     T_0 := repeat 300 n;  T_1 := repeat 300 n;  T_2 := repeat 300 n;
     Qdot1_record := repeat 0 n;   Qdot2_record := repeat 0 n;
     QRdot1_record := repeat 0 n;  QRdot2_record := repeat 0 n |}.

(** What numpy returns where the Material Model is outside its domain:
    [log10 0 = -inf] (with a warning only), the powers of [-inf], and
    [10 ** inf = inf]. *)
Definition numpy_special_values (L : Libs) : Prop :=
  log10 L 0 = neg_infinity /\
  pow L neg_infinity 2 = infinity /\ pow L neg_infinity 3 = neg_infinity /\
  pow L neg_infinity 4 = infinity /\ pow L neg_infinity 5 = neg_infinity /\
  pow L neg_infinity 6 = infinity /\ pow L neg_infinity 7 = neg_infinity /\
  pow L 10 infinity = infinity.

(** ** Sample runs *)

(** The state the stand-in libraries reach after three iterations of
    [scenario_config]. *)
Definition three_steps : state :=
  Eval vm_compute in
    match script Standin.libs scenario_config 3 with
    | Finished st | Unfinished st => st
    | Failed _ => init scenario_config
    end.

(** The state the stand-in libraries reach after two iterations from a
    stage 1 at 0 K: the radiative terms are not zero there. *)
Definition two_cold_steps : state :=
  Eval vm_compute in
    match script Standin.libs zero_kelvin_config 2 with
    | Finished st | Unfinished st => st
    | Failed _ => init zero_kelvin_config
    end.

(** ** Classes of float64 values *)

(** [zeroF x]: [x] is [+0.0] or [-0.0]. *)
Definition zeroF (x : float) : Prop := exists s, Prim2SF x = S754_zero s.

(** [nonfiniteF x]: [x] is NaN or an infinity. *)
Definition nonfiniteF (x : float) : Prop :=
  Prim2SF x = S754_nan \/ exists s, Prim2SF x = S754_infinity s.

(** ** After the loop *)

(** Line 187, [globaltime = globaltime / 3600]: the time axis the seven
    [plt.plot] calls of lines 189-208 draw the series against. *)
Definition hours (st : state) : list float :=
  map (fun t => t / 3600) (globaltime st).

(** ** Further configurations *)

(** All three nodes at 77 K. *)
Definition cold_equilibrium_config : config :=
  mkConfig 10 0.1 5.67E-8 77.0 0.5 0.01 12 77.0 0.5 0.01 15 77.0
           (T_PTC1 reference_config) (T_PTC2 reference_config)
           (Q_PTC1 reference_config) (Q_PTC2 reference_config).

(** Emissivities 0 on both links, the nodes at 300 K, 200 K and 100 K. *)
Definition insulated_config : config :=
  mkConfig 10 0.1 5.67E-8 300.0 0.5 0 12 200.0 0.5 0 15 100.0
           (T_PTC1 reference_config) (T_PTC2 reference_config)
           (Q_PTC1 reference_config) (Q_PTC2 reference_config).

Definition cold_equilibrium_steps : state :=
  Eval vm_compute in
    match script Standin.libs cold_equilibrium_config 3 with
    | Finished st | Unfinished st => st
    | Failed _ => init cold_equilibrium_config
    end.

Definition insulated_steps : state :=
  Eval vm_compute in
    match script Standin.libs insulated_config 3 with
    | Finished st | Unfinished st => st
    | Failed _ => init insulated_config
    end.

(** * Properties *)

(** ** Arrays *)

Lemma last_opt_app (a : list float) (v : float) : last_opt (a ++ [v]) = Some v.
Proof.
  induction a as [|x a IH]; simpl; [reflexivity|].
  destruct (a ++ [v]) eqn:E; [destruct a; discriminate | exact IH].
Qed.

Lemma last_opt_some (a : list float) (v : float) :
  last_opt a = Some v -> exists a', a = a' ++ [v].
Proof.
  induction a as [|x a IH]; simpl; [discriminate|].
  destruct a as [|y a].
  - intros [= <-]. exists []. reflexivity.
  - intro H. destruct (IH H) as [a' E]. exists (x :: a'). simpl. now rewrite E.
Qed.

(** ** One iteration *)

Section StepFacts.

Variable L : Libs.
Variable cfg : config.
Variables f1 f2 : float -> float -> float.

Lemma cp_1_eq (st : state) :
  cp_1 L st = match last_opt (T_1 st) with
              | Some t => Ok (specificHeat L t, st)
              | None => Raise IndexError
              end.
Proof. unfold cp_1, bind, idx_m1, ret. destruct (last_opt (T_1 st)); reflexivity. Qed.

Lemma cp_2_eq (st : state) :
  cp_2 L st = match last_opt (T_2 st) with
              | Some t => Ok (specificHeat L t, st)
              | None => Raise IndexError
              end.
Proof. unfold cp_2, bind, idx_m1, ret. destruct (last_opt (T_2 st)); reflexivity. Qed.

Lemma Cp_1_eq (st : state) :
  Cp_1 L cfg st = match last_opt (T_1 st) with
                  | Some t => Ok (heatCapacity L t (m_1 cfg), st)
                  | None => Raise IndexError
                  end.
Proof. unfold Cp_1, bind. rewrite cp_1_eq. destruct (last_opt (T_1 st)); reflexivity. Qed.

Lemma Cp_2_eq (st : state) :
  Cp_2 L cfg st = match last_opt (T_2 st) with
                  | Some t => Ok (heatCapacity L t (m_2 cfg), st)
                  | None => Raise IndexError
                  end.
Proof. unfold Cp_2, bind. rewrite cp_2_eq. destruct (last_opt (T_2 st)); reflexivity. Qed.

(** The iteration succeeds on arrays that have a last entry, and its
    result is [advance]: every read of the body sees a pre-step value. *)
Lemma step_ok (st : state) (t t0 t1 t2 : float) :
  last_opt (globaltime st) = Some t ->
  last_opt (T_0 st) = Some t0 ->
  last_opt (T_1 st) = Some t1 ->
  last_opt (T_2 st) = Some t2 ->
  step L cfg f1 f2 st = Ok (tt, advance L cfg f1 f2 t t0 t1 t2 st).
Proof.
  intros Ht H0 H1 H2.
  unfold step. unfold bind at 1. rewrite Cp_1_eq, H1.
  unfold bind at 1. rewrite Cp_2_eq, H2.
  cbv [bind idx_m1 ret append_globaltime append_T_0 append_T_1 append_T_2
       append_Qdot1_record append_Qdot2_record append_QRdot1_record
       append_QRdot2_record np_append].
  repeat (progress (simpl; rewrite ?Ht, ?H0, ?H1, ?H2)).
  reflexivity.
Qed.

End StepFacts.

(** The iteration succeeds only on arrays that have a last entry. *)
Lemma step_inv (L : Libs) (cfg : config) (f1 f2 : float -> float -> float)
    (st st' : state) :
  step L cfg f1 f2 st = Ok (tt, st') ->
  exists t t0 t1 t2,
    last_opt (globaltime st) = Some t /\ last_opt (T_0 st) = Some t0 /\
    last_opt (T_1 st) = Some t1 /\ last_opt (T_2 st) = Some t2 /\
    st' = advance L cfg f1 f2 t t0 t1 t2 st.
Proof.
  destruct (last_opt (T_1 st)) as [t1|] eqn:H1.
  2:{ unfold step. unfold bind at 1. rewrite Cp_1_eq, H1. discriminate. }
  destruct (last_opt (T_2 st)) as [t2|] eqn:H2.
  2:{ unfold step. unfold bind at 1. rewrite Cp_1_eq, H1.
      unfold bind at 1. rewrite Cp_2_eq, H2. discriminate. }
  destruct (last_opt (T_0 st)) as [t0|] eqn:H0.
  2:{ unfold step. unfold bind at 1. rewrite Cp_1_eq, H1.
      unfold bind at 1. rewrite Cp_2_eq, H2.
      cbv [bind idx_m1 ret append_Qdot1_record np_append].
      repeat (progress (simpl; rewrite ?H0, ?H1, ?H2)). discriminate. }
  destruct (last_opt (globaltime st)) as [t|] eqn:Ht.
  2:{ unfold step. unfold bind at 1. rewrite Cp_1_eq, H1.
      unfold bind at 1. rewrite Cp_2_eq, H2.
      cbv [bind idx_m1 ret append_globaltime append_T_0 append_T_1 append_T_2
           append_Qdot1_record append_Qdot2_record append_QRdot1_record
           append_QRdot2_record np_append].
      repeat (progress (simpl; rewrite ?Ht, ?H0, ?H1, ?H2)). discriminate. }
  rewrite (step_ok L cfg f1 f2 st t t0 t1 t2 Ht H0 H1 H2).
  intros [= <-]. exists t, t0, t1, t2. repeat split; reflexivity.
Qed.

(** ** States at the head of the loop *)

Lemma advance_extends L cfg f1 f2 t t0 t1 t2 st :
  extends_by_one st (advance L cfg f1 f2 t t0 t1 t2 st).
Proof. unfold extends_by_one, advance; simpl. repeat split; eexists; reflexivity. Qed.

Lemma extends_lengths st st' n :
  extends_by_one st st' -> lengths st n -> lengths st' (S n).
Proof.
  unfold extends_by_one, lengths.
  intros ([? ->] & [? ->] & [? ->] & [? ->] & [? ->] & [? ->] & [? ->] & [? ->]).
  rewrite !length_app; simpl. lia.
Qed.

Lemma hd_error_app_one (a : list float) (v x : float) :
  hd_error a = Some x -> hd_error (a ++ [v]) = Some x.
Proof. destruct a; simpl; [discriminate | trivial]. Qed.

Section RunFacts.

Variable L : Libs.
Variable cfg : config.
Variables f1 f2 : float -> float -> float.

Lemma reachable_has_last st :
  reachable L cfg f1 f2 st ->
  exists t t0 t1 t2,
    last_opt (globaltime st) = Some t /\ last_opt (T_0 st) = Some t0 /\
    last_opt (T_1 st) = Some t1 /\ last_opt (T_2 st) = Some t2.
Proof.
  induction 1 as [|st st' t _ _ _ _ Hs].
  - simpl. eauto 10.
  - apply step_inv in Hs as (u & u0 & u1 & u2 & _ & _ & _ & _ & ->).
    unfold advance; simpl. rewrite !last_opt_app. eauto 10.
Qed.

Lemma reachable_step_ok st :
  reachable L cfg f1 f2 st -> exists st', step L cfg f1 f2 st = Ok (tt, st') /\ extends_by_one st st'.
Proof.
  intro H. destruct (reachable_has_last st H) as (t & t0 & t1 & t2 & Ht & H0 & H1 & H2).
  eexists. split; [apply (step_ok L cfg f1 f2 st t t0 t1 t2); assumption|].
  apply advance_extends.
Qed.

Lemma reachable_lengths st : reachable L cfg f1 f2 st -> exists n, lengths st (S n).
Proof.
  induction 1 as [|st st' t _ [n IH] _ _ Hs].
  - exists O. repeat split.
  - exists (S n). apply step_inv in Hs as (u & u0 & u1 & u2 & _ & _ & _ & _ & ->).
    eapply extends_lengths; [apply advance_extends | exact IH].
Qed.

Lemma reachable_T_0 st : reachable L cfg f1 f2 st -> Forall (fun x => x = T_0_init cfg) (T_0 st).
Proof.
  induction 1 as [|st st' t _ IH _ _ Hs].
  - simpl. constructor; [reflexivity | constructor].
  - apply step_inv in Hs as (u & u0 & u1 & u2 & _ & H0 & _ & _ & ->).
    unfold advance; simpl. apply Forall_app. split; [exact IH|].
    constructor; [|constructor].
    destruct (last_opt_some _ _ H0) as [a E]. rewrite E in IH.
    apply Forall_app in IH as [_ IH]. now inversion IH.
Qed.

Lemma reachable_heads st :
  reachable L cfg f1 f2 st ->
  hd_error (globaltime st) = Some 0 /\
  hd_error (Qdot1_record st) = Some 0 /\ hd_error (Qdot2_record st) = Some 0 /\
  hd_error (QRdot1_record st) = Some 0 /\ hd_error (QRdot2_record st) = Some 0.
Proof.
  induction 1 as [|st st' t _ (Ht & Ha & Hb & Hc & Hd) _ _ Hs].
  - repeat split.
  - apply step_inv in Hs as (u & u0 & u1 & u2 & _ & _ & _ & _ & ->).
    unfold advance; simpl. repeat split; apply hd_error_app_one; assumption.
Qed.

Lemma solver_observed fuel : forall st st',
  reachable L cfg f1 f2 st -> observed (solver L cfg f1 f2 fuel st) st' -> reachable L cfg f1 f2 st'.
Proof.
  induction fuel as [|fuel IH]; intros st st' Hr; simpl;
    destruct (last_opt (globaltime st)) as [t|] eqn:Ht;
    try (intros [H|H]; discriminate);
    destruct (t <? endtime cfg) eqn:Hg;
    try (intros [[= <-]|[= <-]]; assumption);
    try (intros [H|H]; discriminate).
  destruct (step L cfg f1 f2 st) as [[[] st1]|e] eqn:Hs;
    [|intros [H|H]; discriminate].
  apply IH. eapply reach_step; eassumption.
Qed.

Lemma solver_not_failed fuel : forall st e,
  reachable L cfg f1 f2 st -> solver L cfg f1 f2 fuel st <> Failed e.
Proof.
  induction fuel as [|fuel IH]; intros st e Hr; simpl;
    destruct (reachable_has_last st Hr) as (t & t0 & t1 & t2 & Ht & H0 & H1 & H2);
    rewrite Ht; destruct (t <? endtime cfg) eqn:Hg; try discriminate.
  rewrite (step_ok L cfg f1 f2 st t t0 t1 t2 Ht H0 H1 H2).
  apply IH. eapply reach_step; try eassumption.
  apply step_ok; assumption.
Qed.

End RunFacts.

(** The script fails exactly when one of the two interpolant constructions
    raises; otherwise its outcome is that of the loop. *)
Lemma script_observed L cfg fuel st :
  observed (script L cfg fuel) st ->
  exists f1 f2,
    interp2d L (T_PTC1 cfg) (T_PTC2 cfg) (Q_PTC1 cfg) = Ok f1 /\
    interp2d L (T_PTC1 cfg) (T_PTC2 cfg) (Q_PTC2 cfg) = Ok f2 /\
    reachable L cfg f1 f2 st.
Proof.
  unfold script.
  destruct (interp2d L _ _ (Q_PTC1 cfg)) as [f1|e]; [|intros [H|H]; discriminate].
  destruct (interp2d L _ _ (Q_PTC2 cfg)) as [f2|e]; [|intros [H|H]; discriminate].
  intro H. exists f1, f2. repeat split.
  eapply solver_observed; [apply reach_init | exact H].
Qed.

(** ** The energy balance of one step *)

(** C1: in every solver step, with the step energies [Q1], [Q2], [QR1],
    [QR2] and the heat capacities [Cp1], [Cp2] all computed from the
    pre-step temperatures, the step succeeds and appends
    [T1 + (-Q1 + QR1 - QR2) / Cp1] to the stage-1 series and
    [T2 + (-Q2 + QR1) / Cp2] to the stage-2 series: the stage-2 balance
    adds [QR1] and does not subtract [QR2]. *)
Theorem step_energy_balance (L : Libs) (cfg : config)
    (f1 f2 : float -> float -> float) (st : state) (t t0 t1 t2 : float) :
  last_opt (globaltime st) = Some t ->
  last_opt (T_0 st) = Some t0 ->
  last_opt (T_1 st) = Some t1 ->
  last_opt (T_2 st) = Some t2 ->
  let Q1 := f1 t1 t2 * timestep cfg in
  let Q2 := f2 t1 t2 * timestep cfg in
  let QR1 := radiativePower L t0 t1 (A_1 cfg) (eps1 cfg) (stefboltz cfg) * timestep cfg in
  let QR2 := radiativePower L t1 t2 (A_2 cfg) (eps2 cfg) (stefboltz cfg) * timestep cfg in
  let Cp1 := heatCapacity L t1 (m_1 cfg) in
  let Cp2 := heatCapacity L t2 (m_2 cfg) in
  exists st',
    step L cfg f1 f2 st = Ok (tt, st') /\
    T_1 st' = T_1 st ++ [t1 + (- Q1 + QR1 - QR2) / Cp1] /\
    T_2 st' = T_2 st ++ [t2 + (- Q2 + QR1) / Cp2].
Proof.
  intros Ht H0 H1 H2. cbv zeta.
  exists (advance L cfg f1 f2 t t0 t1 t2 st).
  split; [apply step_ok; assumption|]. split; reflexivity.
Qed.

Lemma step_energy_balance_witness :
  exists st',
    step Standin.libs zero_kelvin_config (fun _ _ => 0) (fun _ _ => 0)
         (init zero_kelvin_config) = Ok (tt, st') /\
    T_1 st' = [0; 0] /\ T_2 st' = [300; 300.00003986843291].
Proof.
  destruct (step_energy_balance Standin.libs zero_kelvin_config
              (fun _ _ => 0) (fun _ _ => 0) (init zero_kelvin_config)
              0 300 0 300 eq_refl eq_refl eq_refl eq_refl)
    as (st' & Hs & H1 & H2).
  exists st'. split; [exact Hs|]. rewrite H1, H2.
  split; vm_compute; reflexivity.
Defined.

(** ** The reservoir *)

Lemma step_keeps_T_0 L cfg f1 f2 st st' :
  step L cfg f1 f2 st = Ok (tt, st') -> last_opt (T_0 st') = last_opt (T_0 st).
Proof.
  intro Hs. apply step_inv in Hs as (t & t0 & t1 & t2 & _ & H0 & _ & _ & ->).
  unfold advance; simpl. now rewrite last_opt_app, H0.
Qed.

(** C2: in every run, whatever its length, every entry of the [T_0]
    series equals the initial reservoir temperature, and a step leaves the
    reservoir temperature as it was before the step. *)
Theorem reservoir_invariance (L : Libs) (cfg : config) (fuel : nat) (st : state) :
  observed (script L cfg fuel) st ->
  Forall (fun x => x = T_0_init cfg) (T_0 st) /\
  forall f1 f2 st',
    step L cfg f1 f2 st = Ok (tt, st') -> last_opt (T_0 st') = last_opt (T_0 st).
Proof.
  intro H. destruct (script_observed L cfg fuel st H) as (f1 & f2 & _ & _ & Hr).
  split; [exact (reachable_T_0 L cfg f1 f2 st Hr)|].
  intros g1 g2 st'. apply step_keeps_T_0.
Qed.

Lemma reservoir_invariance_witness :
  Forall (fun x => x = 300) (T_0 three_steps) /\
  forall f1 f2 st',
    step Standin.libs scenario_config f1 f2 three_steps = Ok (tt, st') ->
    last_opt (T_0 st') = last_opt (T_0 three_steps).
Proof.
  apply (reservoir_invariance Standin.libs scenario_config 3 three_steps).
  right. vm_compute. reflexivity.
Defined.

(** ** Inside the loop body *)

Ltac run_body Ht H0 H1 H2 :=
  cbv [step body_prefix body_blocks firstn run_blocks
       stmts_106_128 stmts_132_134 stmts_140_142 stmts_146_148
       stmts_156_157 stmts_162_163 stmts_167_168 stmts_174_175
       Cp_1 Cp_2 cp_1 cp_2 bind idx_m1 ret
       append_globaltime append_T_0 append_T_1 append_T_2
       append_Qdot1_record append_Qdot2_record append_QRdot1_record
       append_QRdot2_record np_append no_locals];
  repeat (progress (simpl; rewrite ?Ht, ?H0, ?H1, ?H2)).

(** The eight groups of statements, run one after the other, are the
    iteration. *)
Lemma step_is_body (L : Libs) (cfg : config) (f1 f2 : float -> float -> float)
    (st : state) :
  step L cfg f1 f2 st =
  match body_prefix L cfg f1 f2 8 st with
  | Ok (_, st') => Ok (tt, st')
  | Raise e => Raise e
  end.
Proof.
  destruct (last_opt (T_1 st)) as [t1|] eqn:H1; [|run_body H1 H1 H1 H1; reflexivity].
  destruct (last_opt (T_2 st)) as [t2|] eqn:H2; [|run_body H1 H2 H1 H2; reflexivity].
  destruct (last_opt (T_0 st)) as [t0|] eqn:H0; [|run_body H0 H0 H1 H2; reflexivity].
  destruct (last_opt (globaltime st)) as [t|] eqn:Ht;
    run_body Ht H0 H1 H2; reflexivity.
Qed.

(** After its [k]-th append the body has extended the first [k] arrays
    of [body_order] and no other. *)
Lemma body_prefix_partly (L : Libs) (cfg : config)
    (f1 f2 : float -> float -> float) (st : state) (t t0 t1 t2 : float) (k : nat) :
  last_opt (globaltime st) = Some t ->
  last_opt (T_0 st) = Some t0 ->
  last_opt (T_1 st) = Some t1 ->
  last_opt (T_2 st) = Some t2 ->
  (k <= 8)%nat ->
  exists v stk,
    body_prefix L cfg f1 f2 k st = Ok (v, stk) /\ partly_extended k st stk.
Proof.
  intros Ht H0 H1 H2 Hk.
  do 9 (destruct k as [|k];
        [run_body Ht H0 H1 H2; eexists; eexists; (split; [reflexivity|]);
         intros i arr Hi;
         do 8 (destruct i as [|i];
               [injection Hi as <-; simpl; eauto|]);
         destruct i; discriminate Hi|]).
  lia.
Qed.

Lemma partly_not_aligned (k n : nat) (st stk : state) :
  lengths st n -> partly_extended k st stk -> (0 < k < 8)%nat ->
  length (Qdot1_record stk) = S (length (globaltime stk)).
Proof.
  intros (Lg & _ & _ & _ & La & _) Hp Hk.
  pose proof (Hp 0%nat Qdot1_record eq_refl) as Ha.
  pose proof (Hp 7%nat globaltime eq_refl) as Hg.
  destruct (Nat.ltb_spec 0 k) as [_|?]; [|lia].
  destruct (Nat.ltb_spec 7 k) as [?|_]; [lia|].
  destruct Ha as [v ->]. rewrite Hg, length_app, La, Lg. simpl. lia.
Qed.

(** ** Alignment of the recorded sequences *)

(** C6, as the code has it: at the head of every iteration of a run and
    at its end the eight recorded sequences have the same length; an
    iteration started there does not fail and, once complete, has
    appended exactly one entry to each sequence and changed no earlier
    entry.  The extension is not atomic: the body appends to the
    sequences one after the other (lines 128, 134, 142, 148, 157, 163,
    168, 175), so after its [k]-th append, [0 < k < 8], the first [k]
    sequences of that order have one entry more than the others, and
    [Qdot1_record] is one entry longer than [globaltime]. *)
Theorem history_aligned (L : Libs) (cfg : config) (fuel : nat) (st : state) :
  observed (script L cfg fuel) st ->
  (exists n, lengths st (S n)) /\
  exists f1 f2 st',
    interp2d L (T_PTC1 cfg) (T_PTC2 cfg) (Q_PTC1 cfg) = Ok f1 /\
    interp2d L (T_PTC1 cfg) (T_PTC2 cfg) (Q_PTC2 cfg) = Ok f2 /\
    step L cfg f1 f2 st = Ok (tt, st') /\
    extends_by_one st st' /\
    lengths st' (S (length (globaltime st))) /\
    forall k, (k <= 8)%nat ->
      exists v stk,
        body_prefix L cfg f1 f2 k st = Ok (v, stk) /\
        partly_extended k st stk /\
        ((0 < k < 8)%nat ->
         length (Qdot1_record stk) = S (length (globaltime stk))) /\
        (k = 8%nat -> stk = st').
Proof.
  intro H. destruct (script_observed L cfg fuel st H) as (f1 & f2 & E1 & E2 & Hr).
  destruct (reachable_lengths L cfg f1 f2 st Hr) as [n Hn].
  split; [exists n; exact Hn|].
  destruct (reachable_step_ok L cfg f1 f2 st Hr) as (st' & Hs & He).
  exists f1, f2, st'.
  split; [exact E1|]. split; [exact E2|]. split; [exact Hs|]. split; [exact He|].
  split.
  - pose proof (extends_lengths st st' (S n) He Hn) as Hl.
    destruct Hn as (Ht & _). rewrite Ht. exact Hl.
  - intros k Hk.
    destruct (reachable_has_last L cfg f1 f2 st Hr)
      as (t & t0 & t1 & t2 & Ht & H0 & H1 & H2).
    destruct (body_prefix_partly L cfg f1 f2 st t t0 t1 t2 k Ht H0 H1 H2 Hk)
      as (v & stk & Eb & Hp).
    exists v, stk. split; [exact Eb|]. split; [exact Hp|]. split.
    + intro Hk'. exact (partly_not_aligned k (S n) st stk Hn Hp Hk').
    + intros ->. rewrite step_is_body, Eb in Hs. now injection Hs.
Qed.

Lemma history_aligned_witness :
  (exists n, lengths three_steps (S n)) /\
  exists f1 f2 st',
    interp2d Standin.libs (T_PTC1 scenario_config) (T_PTC2 scenario_config)
             (Q_PTC1 scenario_config) = Ok f1 /\
    interp2d Standin.libs (T_PTC1 scenario_config) (T_PTC2 scenario_config)
             (Q_PTC2 scenario_config) = Ok f2 /\
    step Standin.libs scenario_config f1 f2 three_steps = Ok (tt, st') /\
    extends_by_one three_steps st' /\
    lengths st' (S (length (globaltime three_steps))) /\
    forall k, (k <= 8)%nat ->
      exists v stk,
        body_prefix Standin.libs scenario_config f1 f2 k three_steps = Ok (v, stk) /\
        partly_extended k three_steps stk /\
        ((0 < k < 8)%nat ->
         length (Qdot1_record stk) = S (length (globaltime stk))) /\
        (k = 8%nat -> stk = st').
Proof.
  apply (history_aligned Standin.libs scenario_config 3 three_steps).
  right. vm_compute. reflexivity.
Defined.

(** The scenario is in its loop at the initial row; after the first
    append of the first iteration (line 128) [Qdot1_record] has two
    entries while the time axis and the temperature series still have
    one, and after the fifth (line 157) five sequences have two entries
    and three have one. *)
Lemma history_counterexample :
  script Standin.libs scenario_config 0 = Unfinished (init scenario_config) /\
  (exists v st,
     body_prefix Standin.libs scenario_config (fun _ _ => 0) (fun _ _ => 0) 1
                 (init scenario_config) = Ok (v, st) /\
     length (Qdot1_record st) = 2%nat /\
     length (QRdot1_record st) = 1%nat /\
     length (T_1 st) = 1%nat /\
     length (globaltime st) = 1%nat) /\
  (exists v st,
     body_prefix Standin.libs scenario_config (fun _ _ => 0) (fun _ _ => 0) 5
                 (init scenario_config) = Ok (v, st) /\
     length (QRdot2_record st) = 2%nat /\
     length (T_0 st) = 2%nat /\
     length (T_1 st) = 1%nat /\
     length (globaltime st) = 1%nat).
Proof.
  split; [vm_compute; reflexivity|].
  split; eexists; eexists; (split; [vm_compute; reflexivity|]);
    repeat split; reflexivity.
Qed.

(** ** The heat-flow records *)

Lemma combine_snoc (a b : list float) (x y : float) :
  length a = length b ->
  combine (a ++ [x]) (b ++ [y]) = combine a b ++ [(x, y)].
Proof.
  revert b. induction a as [|u a IH]; intros [|v b] E; simpl in *;
    try discriminate; [reflexivity|].
  f_equal. apply IH. now injection E.
Qed.

Lemma evals_snoc g (a b : list float) (x y x' y' : float) :
  length a = length b ->
  last_opt a = Some x -> last_opt b = Some y ->
  evals g (a ++ [x']) (b ++ [y']) = evals g a b ++ [g x y].
Proof.
  intros E Ha Hb. unfold evals. rewrite !removelast_last.
  destruct (last_opt_some a x Ha) as [a0 ->].
  destruct (last_opt_some b y Hb) as [b0 ->].
  rewrite !removelast_last.
  rewrite !length_app in E; simpl in E.
  rewrite combine_snoc by lia.
  now rewrite map_app.
Qed.

(** Each heat-flow record is the entry [0.00] written before the loop,
    followed by the value computed from every row but the last. *)
Lemma reachable_heat_flows L cfg f1 f2 st :
  reachable L cfg f1 f2 st ->
  Qdot1_record st = 0 :: evals f1 (T_1 st) (T_2 st) /\
  Qdot2_record st = 0 :: evals f2 (T_1 st) (T_2 st) /\
  QRdot1_record st =
    0 :: evals (fun h c => radiativePower L h c (A_1 cfg) (eps1 cfg) (stefboltz cfg))
               (T_0 st) (T_1 st) /\
  QRdot2_record st =
    0 :: evals (fun h c => radiativePower L h c (A_2 cfg) (eps2 cfg) (stefboltz cfg))
               (T_1 st) (T_2 st).
Proof.
  intro Hr. induction Hr as [|st st' t Hr (Ha & Hb & Hc & Hd) _ _ Hs].
  - repeat split.
  - destruct (reachable_lengths L cfg f1 f2 st Hr)
      as (n & _ & L0 & L1 & L2 & _).
    apply step_inv in Hs as (u & u0 & u1 & u2 & _ & H0 & H1 & H2 & ->).
    unfold advance; cbn [Qdot1_record Qdot2_record QRdot1_record QRdot2_record
                         T_0 T_1 T_2].
    rewrite Ha, Hb, Hc, Hd.
    rewrite (evals_snoc f1 (T_1 st) (T_2 st) u1 u2) by congruence.
    rewrite (evals_snoc f2 (T_1 st) (T_2 st) u1 u2) by congruence.
    rewrite (evals_snoc _ (T_0 st) (T_1 st) u0 u1) by congruence.
    rewrite (evals_snoc _ (T_1 st) (T_2 st) u1 u2) by congruence.
    repeat split.
Qed.

(** C10: for every configuration and every library, each of the four
    heat-flow series of a run begins with the [0.0] written before the
    loop; the entries after it are the capacity map and the radiative
    formula evaluated at the rows before the last, so the value computed
    from the initial temperatures is the second entry, not the first. *)
Theorem heat_flows_start_at_zero (L : Libs) (cfg : config) (fuel : nat) (st : state) :
  observed (script L cfg fuel) st ->
  hd_error (globaltime st) = Some 0 /\
  exists f1 f2,
    interp2d L (T_PTC1 cfg) (T_PTC2 cfg) (Q_PTC1 cfg) = Ok f1 /\
    interp2d L (T_PTC1 cfg) (T_PTC2 cfg) (Q_PTC2 cfg) = Ok f2 /\
    Qdot1_record st = 0 :: evals f1 (T_1 st) (T_2 st) /\
    Qdot2_record st = 0 :: evals f2 (T_1 st) (T_2 st) /\
    QRdot1_record st =
      0 :: evals (fun h c => radiativePower L h c (A_1 cfg) (eps1 cfg) (stefboltz cfg))
                 (T_0 st) (T_1 st) /\
    QRdot2_record st =
      0 :: evals (fun h c => radiativePower L h c (A_2 cfg) (eps2 cfg) (stefboltz cfg))
                 (T_1 st) (T_2 st).
Proof.
  intro H. destruct (script_observed L cfg fuel st H) as (f1 & f2 & E1 & E2 & Hr).
  split; [exact (proj1 (reachable_heads L cfg f1 f2 st Hr))|].
  exists f1, f2. split; [exact E1|]. split; [exact E2|].
  exact (reachable_heat_flows L cfg f1 f2 st Hr).
Qed.

Lemma heat_flows_start_at_zero_witness :
  hd_error (globaltime two_cold_steps) = Some 0 /\
  hd_error (Qdot1_record two_cold_steps) = Some 0 /\
  hd_error (Qdot2_record two_cold_steps) = Some 0 /\
  QRdot1_record two_cold_steps = [0; 2.2963499999999999; 2.2963499999999999] /\
  QRdot2_record two_cold_steps = [0; -2.2963499999999999; -2.2963512206919221].
Proof.
  destruct (heat_flows_start_at_zero Standin.libs zero_kelvin_config 2 two_cold_steps)
    as (Ht & f1 & f2 & _ & _ & H1 & H2 & H3 & H4);
    [right; vm_compute; reflexivity|].
  rewrite H1, H2. repeat split; try exact Ht; vm_compute; reflexivity.
Defined.

(** ** The Material Model *)

Lemma poly_terms_coefficients (L : Libs) (x : float) :
  poly_terms L 0 coefficients x =
  [-1.91844; -0.15973 * x; 8.61013 * pow L x 2; -18.99640 * pow L x 3;
   21.96610 * pow L x 4; -12.73280 * pow L x 5; 3.54322 * pow L x 6;
   -0.37970 * pow L x 7].
Proof. reflexivity. Qed.

(** C8: for every temperature [T] (so for every [T > 0]), [specificHeat T]
    is [10] raised to the sum of the eight terms [c_k * log10(T) ** k] of
    the polynomial with coefficients -1.91844, -0.15973, 8.61013,
    -18.99640, 21.96610, -12.73280, 3.54322, -0.37970, the terms taken in
    this order (the script adds the terms of degree 5 and 6 to each other
    before adding them to the rest); [heatCapacity T mass] is
    [specificHeat T * mass]; and lines 106-107 and 111-112 compute these
    same two functions at the last stage-1 and stage-2 temperature. *)
Theorem specific_heat_polynomial (L : Libs) (cfg : config) (T mass : float)
    (st : state) :
  (exists p,
     bracketed_sum (poly_terms L 0 coefficients (log10 L T)) p /\
     specificHeat L T = pow L 10 p) /\
  heatCapacity L T mass = specificHeat L T * mass /\
  cp_1 L st = match last_opt (T_1 st) with
              | Some t => Ok (specificHeat L t, st)
              | None => Raise IndexError
              end /\
  cp_2 L st = match last_opt (T_2 st) with
              | Some t => Ok (specificHeat L t, st)
              | None => Raise IndexError
              end /\
  Cp_1 L cfg st = match last_opt (T_1 st) with
                  | Some t => Ok (heatCapacity L t (m_1 cfg), st)
                  | None => Raise IndexError
                  end /\
  Cp_2 L cfg st = match last_opt (T_2 st) with
                  | Some t => Ok (heatCapacity L t (m_2 cfg), st)
                  | None => Raise IndexError
                  end.
Proof.
  split.
  - eexists. split; [|unfold specificHeat; reflexivity].
    rewrite poly_terms_coefficients.
    refine (bs_add (_ :: _ :: _ :: _ :: _ :: _ :: [_]) [_] _ _ _ (bs_term _)).
    refine (bs_add (_ :: _ :: _ :: _ :: [_]) (_ :: [_]) _ _ _ _).
    + refine (bs_add (_ :: _ :: _ :: [_]) [_] _ _ _ (bs_term _)).
      refine (bs_add (_ :: _ :: [_]) [_] _ _ _ (bs_term _)).
      refine (bs_add (_ :: [_]) [_] _ _ _ (bs_term _)).
      refine (bs_add [_] [_] _ _ (bs_term _) (bs_term _)).
    + refine (bs_add [_] [_] _ _ (bs_term _) (bs_term _)).
  - split; [reflexivity|].
    split; [apply cp_1_eq|]. split; [apply cp_2_eq|].
    split; [apply Cp_1_eq | apply Cp_2_eq].
Qed.

(** With the stand-in libraries copper at 300 K has a specific heat of
    about 384 J/(kg K). *)
Example specificHeat_300 :
  specificHeat Standin.libs 300 = 383.98800481382978 /\
  heatCapacity Standin.libs 300 12 = 4607.8560577659573.
Proof. split; vm_compute; reflexivity. Qed.

(** ** The time axis *)

Lemma axis_last (dt : float) (n : nat) : forall t,
  exists u, last_opt (axis dt n t) = Some u /\
            axis dt (S n) t = axis dt n t ++ [u + dt].
Proof.
  induction n as [|n IH]; intro t.
  - exists t. split; reflexivity.
  - destruct (IH (t + dt)) as (u & Hu & E). exists u. split.
    + change (axis dt (S n) t) with (t :: axis dt n (t + dt)).
      destruct (axis dt n (t + dt)) eqn:A; [discriminate | exact Hu].
    + change (axis dt (S (S n)) t) with (t :: axis dt (S n) (t + dt)).
      rewrite E. reflexivity.
Qed.

Lemma axis_length (dt : float) (n : nat) : forall t, length (axis dt n t) = S n.
Proof. induction n as [|n IH]; intro t; simpl; [reflexivity | now rewrite IH]. Qed.

Section TimeFacts.

Variable L : Libs.
Variable cfg : config.
Variables f1 f2 : float -> float -> float.

(** Every timestamp but the last passed the loop guard. *)
Lemma reachable_guards st :
  reachable L cfg f1 f2 st ->
  Forall (fun t => (t <? endtime cfg) = true) (removelast (globaltime st)).
Proof.
  induction 1 as [|st st' t _ IH Ht Hg Hs].
  - constructor.
  - apply step_inv in Hs as (u & u0 & u1 & u2 & _ & _ & _ & _ & ->).
    unfold advance; cbn [globaltime]. rewrite removelast_last.
    destruct (last_opt_some _ _ Ht) as [a E]. rewrite E in *.
    rewrite removelast_last in IH. apply Forall_app. split; [exact IH|].
    constructor; [exact Hg | constructor].
Qed.

(** The timestamps are the accumulated sums of [timestep] from [0.00]. *)
Lemma reachable_axis st :
  reachable L cfg f1 f2 st ->
  exists n, globaltime st = axis (timestep cfg) n 0.
Proof.
  induction 1 as [|st st' t _ [n IH] Ht _ Hs].
  - exists O. reflexivity.
  - apply step_inv in Hs as (u & u0 & u1 & u2 & Hu & _ & _ & _ & ->).
    exists (S n). unfold advance; cbn [globaltime].
    destruct (axis_last (timestep cfg) n 0) as (v & Hv & E).
    rewrite E, <- IH. rewrite IH in Hu. congruence.
Qed.

(** The loop makes the iterations [count_steps] counts. *)
Lemma solver_count fuel : forall st t,
  reachable L cfg f1 f2 st ->
  last_opt (globaltime st) = Some t ->
  match count_steps (timestep cfg) (endtime cfg) fuel t with
  | Some n =>
      exists st' u,
        solver L cfg f1 f2 fuel st = Finished st' /\
        length (globaltime st') = (length (globaltime st) + n)%nat /\
        last_opt (globaltime st') = Some u /\ (u <? endtime cfg) = false
  | None =>
      exists st' u,
        solver L cfg f1 f2 fuel st = Unfinished st' /\
        length (globaltime st') = (length (globaltime st) + fuel)%nat /\
        last_opt (globaltime st') = Some u /\ (u <? endtime cfg) = true
  end.
Proof.
  induction fuel as [|fuel IH]; intros st t Hr Ht; simpl; rewrite Ht;
    destruct (t <? endtime cfg) eqn:Hg;
    try (exists st, t; repeat split; solve [assumption | lia]).
  destruct (reachable_has_last L cfg f1 f2 st Hr)
    as (t' & t0 & t1 & t2 & Ht' & H0 & H1 & H2).
  assert (t' = t) as -> by congruence.
  pose proof (step_ok L cfg f1 f2 st t t0 t1 t2 Ht H0 H1 H2) as Hs.
  rewrite Hs.
  assert (Hr' : reachable L cfg f1 f2 (advance L cfg f1 f2 t t0 t1 t2 st))
    by (eapply reach_step; eassumption).
  specialize (IH _ (t + timestep cfg) Hr').
  assert (Hl : last_opt (globaltime (advance L cfg f1 f2 t t0 t1 t2 st))
               = Some (t + timestep cfg))
    by (unfold advance; cbn [globaltime]; apply last_opt_app).
  specialize (IH Hl).
  assert (Hn : length (globaltime (advance L cfg f1 f2 t t0 t1 t2 st))
               = S (length (globaltime st)))
    by (unfold advance; cbn [globaltime]; rewrite length_app; simpl; lia).
  destruct (count_steps (timestep cfg) (endtime cfg) fuel (t + timestep cfg));
    simpl; destruct IH as (st' & u & E & Hlen & Hu & Hgu);
    exists st', u; repeat split; try assumption; rewrite Hlen, Hn; lia.
Qed.

End TimeFacts.

(** The run of the script is decided by its time axis: with both
    interpolants built, the loop stops at the first accumulated sum that
    is not below [endtime], and is still running when no sum within the
    fuel is. *)
Lemma script_count L cfg f1 f2 fuel :
  interp2d L (T_PTC1 cfg) (T_PTC2 cfg) (Q_PTC1 cfg) = Ok f1 ->
  interp2d L (T_PTC1 cfg) (T_PTC2 cfg) (Q_PTC2 cfg) = Ok f2 ->
  match count_steps (timestep cfg) (endtime cfg) fuel 0 with
  | Some n =>
      exists st u,
        script L cfg fuel = Finished st /\
        reachable L cfg f1 f2 st /\
        globaltime st = axis (timestep cfg) n 0 /\
        last_opt (globaltime st) = Some u /\ (u <? endtime cfg) = false
  | None =>
      exists st u,
        script L cfg fuel = Unfinished st /\
        reachable L cfg f1 f2 st /\
        globaltime st = axis (timestep cfg) fuel 0 /\
        last_opt (globaltime st) = Some u /\ (u <? endtime cfg) = true
  end.
Proof.
  intros E1 E2. unfold script. rewrite E1, E2.
  pose proof (solver_count L cfg f1 f2 fuel (init cfg) 0
                (reach_init L cfg f1 f2) eq_refl) as H.
  destruct (count_steps (timestep cfg) (endtime cfg) fuel 0) as [n|];
    destruct H as (st & u & E & Hlen & Hu & Hg); exists st, u;
    (assert (Hr : reachable L cfg f1 f2 st)
       by (eapply solver_observed;
           [apply reach_init | unfold observed; rewrite E; auto]));
    (split; [exact E|]); (split; [exact Hr|]); (split; [|split; assumption]);
    destruct (reachable_axis L cfg f1 f2 st Hr) as [m Hm];
    rewrite Hm in Hlen; rewrite axis_length in Hlen; simpl in Hlen;
    rewrite Hm; f_equal; lia.
Qed.

(** C5, as the code has it: the timestamps are [0.00] followed by the
    accumulated float64 sums of [timestep]; every timestamp but the last
    is below [endtime]; the loop ends at the first sum that is not below
    [endtime], and is still running after [fuel] iterations when none of
    the first [fuel] sums is. *)
Theorem time_axis_accumulates (L : Libs) (cfg : config)
    (f1 f2 : float -> float -> float) (fuel : nat) :
  interp2d L (T_PTC1 cfg) (T_PTC2 cfg) (Q_PTC1 cfg) = Ok f1 ->
  interp2d L (T_PTC1 cfg) (T_PTC2 cfg) (Q_PTC2 cfg) = Ok f2 ->
  match count_steps (timestep cfg) (endtime cfg) fuel 0 with
  | Some n =>
      exists st u,
        script L cfg fuel = Finished st /\
        globaltime st = axis (timestep cfg) n 0 /\
        Forall (fun t => (t <? endtime cfg) = true) (removelast (globaltime st)) /\
        last_opt (globaltime st) = Some u /\ (u <? endtime cfg) = false
  | None =>
      exists st u,
        script L cfg fuel = Unfinished st /\
        globaltime st = axis (timestep cfg) fuel 0 /\
        Forall (fun t => (t <? endtime cfg) = true) (removelast (globaltime st)) /\
        last_opt (globaltime st) = Some u /\ (u <? endtime cfg) = true
  end.
Proof.
  intros E1 E2. pose proof (script_count L cfg f1 f2 fuel E1 E2) as H.
  destruct (count_steps (timestep cfg) (endtime cfg) fuel 0) as [n|];
    destruct H as (st & u & E & Hr & Ha & Hu & Hg); exists st, u;
    repeat split; try assumption;
    exact (reachable_guards L cfg f1 f2 st Hr).
Qed.

Lemma time_axis_accumulates_witness :
  exists st u,
    script Standin.libs scenario_config 200 = Finished st /\
    globaltime st = axis 0.1 101 0 /\
    Forall (fun t => (t <? 10) = true) (removelast (globaltime st)) /\
    last_opt (globaltime st) = Some u /\ (u <? 10) = false.
Proof.
  exact (time_axis_accumulates Standin.libs scenario_config
           (fun _ _ => 0) (fun _ _ => 0) 200 eq_refl eq_refl).
Defined.

(** In the scenario with [dt = 0.1] and end time 10 s the loop makes 101
    iterations: the sum accumulated after 100 additions is
    9.99999999999998, below 10.  Consecutive timestamps do not differ by
    exactly [dt], and the last one, 10.09999999999998, is above
    [0 + 100 * dt = 10], which is already at the end time. *)
Lemma time_axis_counterexample :
  exists st,
    script Standin.libs scenario_config 200 = Finished st /\
    length (globaltime st) = 102%nat /\
    nth 3 (globaltime st) 0 - nth 2 (globaltime st) 0 = 0.10000000000000003 /\
    (nth 3 (globaltime st) 0 - nth 2 (globaltime st) 0
       =? timestep scenario_config) = false /\
    nth 100 (globaltime st) 0 = 9.9999999999999805 /\
    last_opt (globaltime st) = Some 10.09999999999998 /\
    (endtime scenario_config <=? 0 + 100 * timestep scenario_config) = true /\
    (0 + 100 * timestep scenario_config <? 10.09999999999998) = true.
Proof.
  eexists. split; [vm_compute; reflexivity|].
  repeat split; vm_compute; reflexivity.
Qed.

Lemma count_acc_steps (dt tend : float) (fuel : nat) : forall t acc k,
  count_acc dt tend fuel t acc = Some k ->
  exists n, count_steps dt tend fuel t = Some n /\ k = (acc + N.of_nat n)%N.
Proof.
  induction fuel as [|fuel IH]; intros t acc k; simpl;
    destruct (t <? tend); try discriminate;
    try (intros [= <-]; exists O; split; [reflexivity | simpl; lia]).
  intro H. destruct (IH _ _ _ H) as (n & -> & ->).
  exists (S n). split; [reflexivity | lia].
Qed.

(** X6: the script as written ([dt = 0.1 s], five hours) leaves its loop
    after exactly 180000 iterations, with 180001 rows, whatever the
    libraries compute: the accumulated float64 sum first reaches 18000 s
    at the 180000th addition. *)
Lemma reference_run_terminates L f1 f2 :
  interp2d L (T_PTC1 reference_config) (T_PTC2 reference_config)
           (Q_PTC1 reference_config) = Ok f1 ->
  interp2d L (T_PTC1 reference_config) (T_PTC2 reference_config)
           (Q_PTC2 reference_config) = Ok f2 ->
  exists st u,
    script L reference_config (N.to_nat 180000) = Finished st /\
    N.of_nat (length (globaltime st)) = 180001%N /\
    last_opt (globaltime st) = Some u /\ (u <? 18000) = false.
Proof.
  intros E1 E2.
  pose proof (script_count L reference_config f1 f2 (N.to_nat 180000) E1 E2) as H.
  assert (C : count_acc (timestep reference_config) (endtime reference_config)
                        (N.to_nat 180000) 0 0 = Some 180000%N)
    by (vm_compute; reflexivity).
  apply count_acc_steps in C as (n & C & Hn). rewrite C in H.
  destruct H as (st & u & E & _ & Ha & Hu & Hg).
  exists st, u. repeat split; try assumption.
  rewrite Ha, axis_length. lia.
Qed.

(** ** Two facts of IEEE arithmetic *)

Lemma sub_self_finite (p : float) : is_finite p = true -> p - p = 0.
Proof.
  intro H. apply Prim2SF_inj. rewrite sub_spec.
  unfold is_finite, is_nan, is_infinity in H.
  rewrite !FloatAxioms.eqb_spec, abs_spec in H.
  destruct (Prim2SF p) as [s|s| |s m e].
  - destruct s; reflexivity.
  - destruct s; vm_compute in H; discriminate H.
  - discriminate H.
  - unfold SF64sub, SFsub.
    change (IntDef.Z.min e e) with (Z.min e e). rewrite Z.min_id. unfold shl_align.
    replace (IntDef.Z.sub e e) with 0%Z by (symmetry; apply Z.sub_diag).
    cbn [fst].
    replace (IntDef.Z.sub (cond_Zopp s (Z.pos m)) (cond_Zopp s (Z.pos m)))
      with 0%Z by (symmetry; apply Z.sub_diag).
    reflexivity.
Qed.

Lemma zero_div_positive (c : float) : (0 <? c) = true -> 0 / c = 0.
Proof.
  intro H. apply Prim2SF_inj. rewrite div_spec.
  rewrite ltb_spec in H.
  destruct (Prim2SF c) as [s|s| |s m e]; try discriminate H;
    destruct s; try discriminate H; reflexivity.
Qed.

(** ** The 300 K scenario *)

Lemma last_opt_repeat (x : float) (n : nat) : last_opt (repeat x (S n)) = Some x.
Proof.
  induction n as [|n IH]; [reflexivity|].
  change (repeat x (S (S n))) with (x :: repeat x (S n)).
  change (last_opt (x :: repeat x (S n))) with (last_opt (repeat x (S n))).
  exact IH.
Qed.

Lemma repeat_snoc (x : float) (n : nat) : repeat x n ++ [x] = repeat x (S n).
Proof. induction n as [|n IH]; simpl; [reflexivity | now rewrite IH]. Qed.

Section Scenario.

Variable L : Libs.
Variables f1 f2 : float -> float -> float.

(** The capacity map returns 0 W everywhere. *)
Hypothesis f1_zero : forall a b, f1 a b = 0.
Hypothesis f2_zero : forall a b, f2 a b = 0.

(** [300 ** 4] is a finite number, and the heat capacities of 12 kg and
    15 kg of copper at 300 K are positive. *)
Hypothesis pow_300_finite : is_finite (pow L 300 4) = true.
Hypothesis Cp1_positive : (0 <? heatCapacity L 300 12) = true.
Hypothesis Cp2_positive : (0 <? heatCapacity L 300 15) = true.

Lemma advance_uniform (g : list float) (n : nat) (t : float) :
  advance L scenario_config f1 f2 t 300 300 300 (uniform g (S n))
  = uniform (g ++ [t + 0.1]) (S (S n)).
Proof.
  unfold advance, uniform, radiativePower.
  cbn [globaltime T_0 T_1 T_2 Qdot1_record Qdot2_record QRdot1_record QRdot2_record].
  rewrite f1_zero, f2_zero, (sub_self_finite _ pow_300_finite).
  change (m_1 scenario_config) with 12. change (m_2 scenario_config) with 15.
  set (C1 := heatCapacity L 300 12) in *. set (C2 := heatCapacity L 300 15) in *.
  change (timestep scenario_config) with 0.1.
  replace (- (0 * 0.1) + A_1 scenario_config * eps1 scenario_config
             * stefboltz scenario_config * 0 * 0.1
           - A_2 scenario_config * eps2 scenario_config
             * stefboltz scenario_config * 0 * 0.1) with 0
    by (vm_compute; reflexivity).
  replace (- (0 * 0.1) + A_1 scenario_config * eps1 scenario_config
             * stefboltz scenario_config * 0 * 0.1) with 0
    by (vm_compute; reflexivity).
  replace (A_1 scenario_config * eps1 scenario_config
           * stefboltz scenario_config * 0) with 0 by (vm_compute; reflexivity).
  replace (A_2 scenario_config * eps2 scenario_config
           * stefboltz scenario_config * 0) with 0 by (vm_compute; reflexivity).
  rewrite (zero_div_positive _ Cp1_positive), (zero_div_positive _ Cp2_positive).
  replace (300 + 0) with 300 by (vm_compute; reflexivity).
  rewrite !(repeat_snoc 300 (S n)), !(repeat_snoc 0 (S n)).
  reflexivity.
Qed.

Lemma reachable_uniform st :
  reachable L scenario_config f1 f2 st ->
  exists g n, st = uniform g (S n).
Proof.
  induction 1 as [|st st' t _ (g & n & ->) _ _ Hs].
  - exists [0], O. reflexivity.
  - apply step_inv in Hs as (u & u0 & u1 & u2 & _ & H0 & H1 & H2 & ->).
    cbn [uniform T_0 T_1 T_2] in H0, H1, H2.
    rewrite last_opt_repeat in H0, H1, H2.
    injection H0 as <-. injection H1 as <-. injection H2 as <-.
    rewrite advance_uniform. eauto.
Qed.

Lemma scenario_constant st :
  reachable L scenario_config f1 f2 st ->
  T_1 st = repeat 300 (length (globaltime st)) /\
  T_2 st = repeat 300 (length (globaltime st)).
Proof.
  intro Hr. destruct (reachable_lengths _ _ _ _ _ Hr) as (k & Hg & _ & H1 & _).
  destruct (reachable_uniform st Hr) as (g & n & ->).
  cbn [uniform T_1 T_2 globaltime] in *.
  rewrite repeat_length in H1. rewrite Hg, <- H1. split; reflexivity.
Qed.

End Scenario.

(** C9, as the code has it: in the scenario ([dt = 0.1 s], end time 10 s,
    all nodes at 300 K, 12 kg and 15 kg, a capacity map that is 0 W
    everywhere, areas 0.5 m2, emissivities 0.01) the loop makes 101
    iterations and every entry of the stage-1 and stage-2 series is
    exactly 300 K: the radiative terms vanish between nodes at one
    temperature, so the series never decrease; they are constant, and
    above 299.9 K throughout. *)
Theorem scenario_temperatures_constant (L : Libs) (f1 f2 : float -> float -> float) :
  interp2d L (T_PTC1 scenario_config) (T_PTC2 scenario_config)
           (Q_PTC1 scenario_config) = Ok f1 ->
  interp2d L (T_PTC1 scenario_config) (T_PTC2 scenario_config)
           (Q_PTC2 scenario_config) = Ok f2 ->
  (forall a b, f1 a b = 0) ->
  (forall a b, f2 a b = 0) ->
  is_finite (pow L 300 4) = true ->
  (0 <? heatCapacity L 300 12) = true ->
  (0 <? heatCapacity L 300 15) = true ->
  (exists st,
     script L scenario_config 101 = Finished st /\
     length (globaltime st) = 102%nat /\
     T_1 st = repeat 300 102 /\ T_2 st = repeat 300 102 /\
     (299.9 <? 300) = true) /\
  (forall fuel st,
     observed (script L scenario_config fuel) st ->
     T_1 st = repeat 300 (length (globaltime st)) /\
     T_2 st = repeat 300 (length (globaltime st))).
Proof.
  intros E1 E2 Z1 Z2 Hp C1 C2. split.
  - pose proof (script_count L scenario_config f1 f2 101 E1 E2) as H.
    assert (C : count_steps (timestep scenario_config) (endtime scenario_config)
                            101 0 = Some 101%nat) by (vm_compute; reflexivity).
    rewrite C in H. destruct H as (st & u & E & Hr & Ha & _ & _).
    destruct (scenario_constant L f1 f2 Z1 Z2 Hp C1 C2 st Hr) as (H1 & H2).
    assert (Hl : length (globaltime st) = 102%nat)
      by (rewrite Ha; apply axis_length).
    rewrite Hl in H1, H2. exists st. repeat split; assumption.
  - intros fuel st H.
    destruct (script_observed L scenario_config fuel st H) as (g1 & g2 & G1 & G2 & Hr).
    rewrite E1 in G1. rewrite E2 in G2.
    injection G1 as <-. injection G2 as <-.
    exact (scenario_constant L f1 f2 Z1 Z2 Hp C1 C2 st Hr).
Qed.

Lemma scenario_temperatures_constant_witness :
  (exists st,
     script Standin.libs scenario_config 101 = Finished st /\
     length (globaltime st) = 102%nat /\
     T_1 st = repeat 300 102 /\ T_2 st = repeat 300 102 /\
     (299.9 <? 300) = true) /\
  (forall fuel st,
     observed (script Standin.libs scenario_config fuel) st ->
     T_1 st = repeat 300 (length (globaltime st)) /\
     T_2 st = repeat 300 (length (globaltime st))).
Proof.
  apply (scenario_temperatures_constant Standin.libs (fun _ _ => 0) (fun _ _ => 0));
    try (intros; reflexivity); vm_compute; reflexivity.
Defined.

(** With the stand-in libraries the stage temperatures of the scenario
    do not decrease: the second row is not below the first and the last
    row is still at 300 K. *)
Lemma scenario_counterexample :
  exists st,
    script Standin.libs scenario_config 101 = Finished st /\
    T_1 st = repeat 300 102 /\ T_2 st = repeat 300 102 /\
    (nth 1 (T_1 st) 0 <? nth 0 (T_1 st) 0) = false /\
    (nth 1 (T_2 st) 0 <? nth 0 (T_2 st) 0) = false /\
    last_opt (T_1 st) = Some 300 /\ last_opt (T_2 st) = Some 300 /\
    QRdot1_record st = repeat 0 102 /\ QRdot2_record st = repeat 0 102.
Proof.
  eexists. split; [vm_compute; reflexivity|].
  repeat split; vm_compute; reflexivity.
Qed.

(** ** Non-positive temperatures and malformed configurations *)

Lemma specificHeat_zero (L : Libs) :
  numpy_special_values L -> specificHeat L 0 = infinity.
Proof.
  intros (H0 & H2 & H3 & H4 & H5 & H6 & H7 & H10).
  unfold specificHeat. rewrite H0, H2, H3, H4, H5, H6, H7.
  match goal with
  | |- pow L 10 ?e = _ =>
      replace e with infinity by (vm_compute; reflexivity)
  end.
  exact H10.
Qed.

Lemma standin_special_values : numpy_special_values Standin.libs.
Proof. repeat split; vm_compute; reflexivity. Qed.

Lemma solver_observed_exists L cfg f1 f2 fuel st :
  reachable L cfg f1 f2 st ->
  exists st', observed (solver L cfg f1 f2 fuel st) st'.
Proof.
  intro Hr. destruct (solver L cfg f1 f2 fuel st) as [st'|st'|e] eqn:E.
  - exists st'. left. reflexivity.
  - exists st'. right. reflexivity.
  - exfalso. exact (solver_not_failed L cfg f1 f2 fuel st e Hr E).
Qed.

Lemma script_observed_exists L cfg f1 f2 fuel :
  interp2d L (T_PTC1 cfg) (T_PTC2 cfg) (Q_PTC1 cfg) = Ok f1 ->
  interp2d L (T_PTC1 cfg) (T_PTC2 cfg) (Q_PTC2 cfg) = Ok f2 ->
  exists st, observed (script L cfg fuel) st.
Proof.
  intros E1 E2. unfold script. rewrite E1, E2.
  apply solver_observed_exists. apply reach_init.
Qed.

Lemma init_step_ok L cfg f1 f2 :
  exists st', step L cfg f1 f2 (init cfg) = Ok (tt, st') /\ lengths st' 2.
Proof.
  destruct (reachable_step_ok L cfg f1 f2 (init cfg) (reach_init L cfg f1 f2))
    as (st' & Hs & He).
  exists st'. split; [exact Hs|].
  apply (extends_lengths (init cfg) st' 1 He). repeat split.
Qed.

(** C3, as the code has it: the script has no domain check.  Once the
    two interpolants are built the run never aborts, whatever the
    temperatures: the Material Model returns a value for every
    temperature, positive or not, and the first step executes and extends
    every sequence.  With numpy's values at the edge of the domain the
    heat capacity at 0 K is [inf * mass], a non-finite value that the
    step goes on to use. *)
Theorem non_positive_temperature_no_abort (L : Libs) (cfg : config)
    (f1 f2 : float -> float -> float) (fuel : nat) :
  interp2d L (T_PTC1 cfg) (T_PTC2 cfg) (Q_PTC1 cfg) = Ok f1 ->
  interp2d L (T_PTC1 cfg) (T_PTC2 cfg) (Q_PTC2 cfg) = Ok f2 ->
  (exists st, observed (script L cfg fuel) st) /\
  (exists st', step L cfg f1 f2 (init cfg) = Ok (tt, st') /\ lengths st' 2) /\
  (forall T st, last_opt (T_1 st) = Some T ->
                Cp_1 L cfg st = Ok (heatCapacity L T (m_1 cfg), st)) /\
  (forall T st, last_opt (T_2 st) = Some T ->
                Cp_2 L cfg st = Ok (heatCapacity L T (m_2 cfg), st)) /\
  (numpy_special_values L ->
   heatCapacity L 0 (m_1 cfg) = infinity * m_1 cfg /\
   heatCapacity L 0 (m_2 cfg) = infinity * m_2 cfg).
Proof.
  intros E1 E2.
  split; [exact (script_observed_exists L cfg f1 f2 fuel E1 E2)|].
  split; [apply init_step_ok|].
  split; [intros T st H; rewrite Cp_1_eq, H; reflexivity|].
  split; [intros T st H; rewrite Cp_2_eq, H; reflexivity|].
  intro H. unfold heatCapacity. rewrite (specificHeat_zero L H).
  split; reflexivity.
Qed.

Lemma non_positive_temperature_no_abort_witness :
  (exists st, observed (script Standin.libs zero_kelvin_config 3) st) /\
  (exists st', step Standin.libs zero_kelvin_config (fun _ _ => 0) (fun _ _ => 0)
                    (init zero_kelvin_config) = Ok (tt, st') /\ lengths st' 2) /\
  Cp_1 Standin.libs zero_kelvin_config (init zero_kelvin_config)
    = Ok (infinity, init zero_kelvin_config) /\
  heatCapacity Standin.libs 0 12 = infinity.
Proof.
  destruct (non_positive_temperature_no_abort Standin.libs zero_kelvin_config
              (fun _ _ => 0) (fun _ _ => 0) 3 eq_refl eq_refl)
    as (Ha & Hb & Hc & _ & Hd).
  split; [exact Ha|]. split; [exact Hb|].
  destruct (Hd standin_special_values) as (Hd1 & _).
  split.
  - rewrite (Hc 0 (init zero_kelvin_config) eq_refl), Hd1.
    vm_compute. reflexivity.
  - change 12 with (m_1 zero_kelvin_config). rewrite Hd1.
    vm_compute. reflexivity.
Defined.

(** With stage 1 starting at 0 K the run does not fail: after three
    iterations the loop is still running, stage 1 sits at 0 K on every
    row, and the heat capacity the first step divided by is infinite. *)
Lemma zero_kelvin_counterexample :
  exists st,
    script Standin.libs zero_kelvin_config 3 = Unfinished st /\
    length (globaltime st) = 4%nat /\
    T_1 st = [0; 0; 0; 0] /\
    T_2 st = [300; 300.00003986843291; 300.00007973686576; 300.00011960529855] /\
    Cp_1 Standin.libs zero_kelvin_config (init zero_kelvin_config)
      = Ok (infinity, init zero_kelvin_config).
Proof.
  eexists. split; [vm_compute; reflexivity|].
  repeat split; vm_compute; reflexivity.
Qed.

(** No accumulated sum moves away from 0 when the time step is 0. *)
Lemma count_steps_frozen (tend : float) (fuel : nat) :
  (0 <? tend) = true -> count_steps 0 tend fuel 0 = None.
Proof.
  intro H. induction fuel as [|fuel IH]; simpl; rewrite H; [reflexivity|].
  change (0 + 0) with 0. rewrite IH. reflexivity.
Qed.

(** X5: with a time step of 0 s and an end time above 0 the loop of line
    94 never ends: whatever the number of iterations allowed, the script
    is still looping. *)
Lemma zero_timestep_never_finishes L cfg f1 f2 fuel :
  interp2d L (T_PTC1 cfg) (T_PTC2 cfg) (Q_PTC1 cfg) = Ok f1 ->
  interp2d L (T_PTC1 cfg) (T_PTC2 cfg) (Q_PTC2 cfg) = Ok f2 ->
  timestep cfg = 0 -> (0 <? endtime cfg) = true ->
  exists st, script L cfg fuel = Unfinished st.
Proof.
  intros E1 E2 Hdt Hend.
  pose proof (script_count L cfg f1 f2 fuel E1 E2) as H.
  rewrite Hdt, (count_steps_frozen _ fuel Hend) in H.
  destruct H as (st & u & E & _). exists st. exact E.
Qed.

(** The loop body runs at least once when [0.00 < endtime]. *)
Lemma script_starts L cfg f1 f2 fuel :
  interp2d L (T_PTC1 cfg) (T_PTC2 cfg) (Q_PTC1 cfg) = Ok f1 ->
  interp2d L (T_PTC1 cfg) (T_PTC2 cfg) (Q_PTC2 cfg) = Ok f2 ->
  (0 <? endtime cfg) = true ->
  exists st, observed (script L cfg (S fuel)) st /\
             (2 <= length (globaltime st))%nat.
Proof.
  intros E1 E2 Hend.
  pose proof (script_count L cfg f1 f2 (S fuel) E1 E2) as H.
  cbn [count_steps] in H. rewrite Hend in H.
  destruct (count_steps (timestep cfg) (endtime cfg) fuel (0 + timestep cfg))
    as [n|]; cbn [option_map] in H; destruct H as (st & u & E & _ & Ha & _);
    exists st; (split; [unfold observed; rewrite E; auto|]);
    rewrite Ha, axis_length; lia.
Qed.

Lemma script_skips_loop L cfg f1 f2 fuel :
  interp2d L (T_PTC1 cfg) (T_PTC2 cfg) (Q_PTC1 cfg) = Ok f1 ->
  interp2d L (T_PTC1 cfg) (T_PTC2 cfg) (Q_PTC2 cfg) = Ok f2 ->
  (0 <? endtime cfg) = false ->
  script L cfg fuel = Finished (init cfg).
Proof.
  intros E1 E2 Hend. unfold script. rewrite E1, E2.
  destruct fuel; simpl; rewrite Hend; reflexivity.
Qed.

(** C4, as the code has it: the script validates nothing itself.  The
    only failure before the loop is an exception raised by one of the two
    [interp2d] constructions, and then no step runs.  Once both
    interpolants are built the run never fails, whatever the masses,
    areas, end time and time step: when the end time is not above 0 the
    loop body never runs and the initial row is the result; when it is,
    the loop starts. *)
Theorem configuration_not_validated (L : Libs) (cfg : config) (fuel : nat) :
  match interp2d L (T_PTC1 cfg) (T_PTC2 cfg) (Q_PTC1 cfg) with
  | Raise e => script L cfg fuel = Failed e
  | Ok f1 =>
      match interp2d L (T_PTC1 cfg) (T_PTC2 cfg) (Q_PTC2 cfg) with
      | Raise e => script L cfg fuel = Failed e
      | Ok f2 =>
          (exists st, observed (script L cfg fuel) st) /\
          ((0 <? endtime cfg) = false ->
           script L cfg fuel = Finished (init cfg)) /\
          ((0 <? endtime cfg) = true ->
           exists st, observed (script L cfg (S fuel)) st /\
                      (2 <= length (globaltime st))%nat)
      end
  end.
Proof.
  destruct (interp2d L (T_PTC1 cfg) (T_PTC2 cfg) (Q_PTC1 cfg)) as [f1|e] eqn:E1.
  2:{ unfold script. rewrite E1. reflexivity. }
  destruct (interp2d L (T_PTC1 cfg) (T_PTC2 cfg) (Q_PTC2 cfg)) as [f2|e] eqn:E2.
  2:{ unfold script. rewrite E1, E2. reflexivity. }
  split; [exact (script_observed_exists L cfg f1 f2 fuel E1 E2)|].
  split; [apply (script_skips_loop L cfg f1 f2 fuel E1 E2)|].
  apply (script_starts L cfg f1 f2 fuel E1 E2).
Qed.

Lemma configuration_not_validated_witness :
  script Standin.libs ragged_config 5 = Failed ValueError /\
  (exists st, observed (script Standin.libs massless_config 5) st) /\
  (exists st, observed (script Standin.libs massless_config 6) st /\
              (2 <= length (globaltime st))%nat).
Proof.
  split; [exact (configuration_not_validated Standin.libs ragged_config 5)|].
  destruct (configuration_not_validated Standin.libs massless_config 5)
    as (Ha & _ & Hb).
  split; [exact Ha | exact (Hb eq_refl)].
Defined.

(** Malformed values that pass unnoticed: with a stage of mass 0 the loop
    starts and stage 1 becomes NaN; with a time step of 0 s the loop runs
    on at time 0; with a negative end time the script completes with the
    initial row alone. *)
Lemma configuration_counterexample :
  (exists st,
     script Standin.libs massless_config 2 = Unfinished st /\
     length (globaltime st) = 3%nat /\ T_1 st = [300; nan; nan]) /\
  (exists st,
     script Standin.libs frozen_clock_config 50 = Unfinished st /\
     globaltime st = repeat 0 51) /\
  script Standin.libs (with_endtime (-1) reference_config) 50
    = Finished (init (with_endtime (-1) reference_config)).
Proof.
  split; [eexists; split; [vm_compute; reflexivity|split; vm_compute; reflexivity]|].
  split; [eexists; split; [vm_compute; reflexivity|vm_compute; reflexivity]|].
  vm_compute. reflexivity.
Qed.

(** ** More facts of IEEE arithmetic *)

Lemma is_zero_zeroF (x : float) : is_zero x = true -> zeroF x.
Proof.
  unfold is_zero, zeroF. rewrite FloatAxioms.eqb_spec.
  destruct (Prim2SF x) as [s|s| |s m e]; intro H.
  - eauto.
  - destruct s; discriminate H.
  - discriminate H.
  - destruct s; discriminate H.
Qed.

Lemma zeroF_is_zero (x : float) : zeroF x -> is_zero x = true.
Proof.
  intros [s E]. unfold is_zero. rewrite FloatAxioms.eqb_spec, E. reflexivity.
Qed.

Lemma is_finite_cases (x : float) :
  is_finite x = true ->
  zeroF x \/ exists s m e, Prim2SF x = S754_finite s m e.
Proof.
  unfold is_finite, is_nan, is_infinity, zeroF.
  rewrite !FloatAxioms.eqb_spec, abs_spec.
  destruct (Prim2SF x) as [s|s| |s m e]; intro H.
  - left. eauto.
  - destruct s; vm_compute in H; discriminate H.
  - discriminate H.
  - right. eauto.
Qed.

Lemma positive_cases (x : float) :
  (0 <? x) = true ->
  Prim2SF x = S754_infinity false \/ exists m e, Prim2SF x = S754_finite false m e.
Proof.
  rewrite ltb_spec.
  destruct (Prim2SF x) as [s|s| |s m e]; intro H; try discriminate H;
    destruct s; try discriminate H; eauto.
Qed.

Lemma not_finite_intro (x : float) :
  Prim2SF x = S754_nan \/ (exists s, Prim2SF x = S754_infinity s) ->
  is_finite x = false.
Proof.
  unfold is_finite, is_nan, is_infinity.
  rewrite !FloatAxioms.eqb_spec, abs_spec.
  intros [E|[s E]]; rewrite E; [reflexivity | destruct s; reflexivity].
Qed.

Lemma zeroF_mul_l (z c : float) : zeroF z -> is_finite c = true -> zeroF (z * c).
Proof.
  intros [s E] H. unfold zeroF. rewrite mul_spec, E.
  destruct (is_finite_cases c H) as [[s' E']|(s' & m & e & E')]; rewrite E';
    eexists; reflexivity.
Qed.

Lemma zeroF_mul_r (c z : float) : is_finite c = true -> zeroF z -> zeroF (c * z).
Proof.
  intros H [s E]. unfold zeroF. rewrite mul_spec, E.
  destruct (is_finite_cases c H) as [[s' E']|(s' & m & e & E')]; rewrite E';
    eexists; reflexivity.
Qed.

Lemma zeroF_opp (z : float) : zeroF z -> zeroF (- z).
Proof. intros [s E]. unfold zeroF. rewrite opp_spec, E. eexists; reflexivity. Qed.

Lemma zeroF_add (a b : float) : zeroF a -> zeroF b -> zeroF (a + b).
Proof.
  intros [s E] [s' E']. unfold zeroF. rewrite add_spec, E, E'.
  destruct s, s'; eexists; reflexivity.
Qed.

Lemma zeroF_sub (a b : float) : zeroF a -> zeroF b -> zeroF (a - b).
Proof.
  intros [s E] [s' E']. unfold zeroF. rewrite sub_spec, E, E'.
  destruct s, s'; eexists; reflexivity.
Qed.

Lemma zeroF_div_positive (z c : float) : zeroF z -> (0 <? c) = true -> zeroF (z / c).
Proof.
  intros [s E] H. unfold zeroF. rewrite div_spec, E.
  destruct (positive_cases c H) as [E'|(m & e & E')]; rewrite E';
    eexists; reflexivity.
Qed.

Lemma add_zeroF_positive (t z : float) : (0 <? t) = true -> zeroF z -> t + z = t.
Proof.
  intros H [s E]. apply Prim2SF_inj. rewrite add_spec, E.
  destruct (positive_cases t H) as [E'|(m & e & E')]; rewrite E'; reflexivity.
Qed.

Lemma div_zeroF_nonfinite (x c : float) : zeroF c -> nonfiniteF (x / c).
Proof.
  intros [s E]. unfold nonfiniteF. rewrite div_spec, E.
  destruct (Prim2SF x) as [sx|sx| |sx m e]; simpl; eauto.
Qed.

Lemma add_nonfinite (t y : float) : nonfiniteF y -> nonfiniteF (t + y).
Proof.
  unfold nonfiniteF. rewrite add_spec. intros [E|[s E]]; rewrite E.
  - left. destruct (Prim2SF t); reflexivity.
  - destruct (Prim2SF t) as [st|st| |st m e]; simpl; eauto.
    destruct st, s; simpl; eauto.
Qed.

Lemma infinity_mul_positive (m : float) : (0 <? m) = true -> infinity * m = infinity.
Proof.
  intro H. apply Prim2SF_inj. rewrite mul_spec.
  destruct (positive_cases m H) as [E|(p & e & E)]; rewrite E; reflexivity.
Qed.

Lemma div_infinity_zeroF (x : float) : is_finite x = true -> zeroF (x / infinity).
Proof.
  intro H. unfold zeroF. rewrite div_spec.
  destruct (is_finite_cases x H) as [[s E]|(s & m & e & E)]; rewrite E;
    eexists; reflexivity.
Qed.

Lemma zero_add_zeroF (z : float) : zeroF z -> 0 + z = 0.
Proof.
  intros [s E]. apply Prim2SF_inj. rewrite add_spec, E. destruct s; reflexivity.
Qed.

(** ** Steady states *)

Lemma zeroF_zero : zeroF 0.
Proof. exists false. reflexivity. Qed.

Section Steady.

Variable L : Libs.
Variable cfg : config.
Variables f1 f2 : float -> float -> float.

(** A step in which the four heat flows vanish leaves both stage
    temperatures as they were. *)
Lemma steady_step (t t0 t1 t2 : float) (st : state) :
  zeroF (f1 t1 t2) -> zeroF (f2 t1 t2) ->
  zeroF (radiativePower L t0 t1 (A_1 cfg) (eps1 cfg) (stefboltz cfg)) ->
  zeroF (radiativePower L t1 t2 (A_2 cfg) (eps2 cfg) (stefboltz cfg)) ->
  is_finite (timestep cfg) = true ->
  (0 <? heatCapacity L t1 (m_1 cfg)) = true ->
  (0 <? heatCapacity L t2 (m_2 cfg)) = true ->
  (0 <? t1) = true -> (0 <? t2) = true ->
  T_1 (advance L cfg f1 f2 t t0 t1 t2 st) = T_1 st ++ [t1] /\
  T_2 (advance L cfg f1 f2 t t0 t1 t2 st) = T_2 st ++ [t2].
Proof.
  intros Z1 Z2 R1 R2 Hdt C1 C2 P1 P2. unfold advance; cbn [T_1 T_2].
  split; f_equal; f_equal.
  - apply add_zeroF_positive; [exact P1|].
    apply zeroF_div_positive; [|exact C1].
    apply zeroF_sub; [apply zeroF_add; [apply zeroF_opp|]|];
      apply zeroF_mul_l; assumption.
  - apply add_zeroF_positive; [exact P2|].
    apply zeroF_div_positive; [|exact C2].
    apply zeroF_add; [apply zeroF_opp|]; apply zeroF_mul_l; assumption.
Qed.

Hypothesis lift1_zero : zeroF (f1 (T_1_init cfg) (T_2_init cfg)).
Hypothesis lift2_zero : zeroF (f2 (T_1_init cfg) (T_2_init cfg)).
Hypothesis rad1_zero :
  zeroF (radiativePower L (T_0_init cfg) (T_1_init cfg)
                        (A_1 cfg) (eps1 cfg) (stefboltz cfg)).
Hypothesis rad2_zero :
  zeroF (radiativePower L (T_1_init cfg) (T_2_init cfg)
                        (A_2 cfg) (eps2 cfg) (stefboltz cfg)).
Hypothesis dt_finite : is_finite (timestep cfg) = true.
Hypothesis Cp1_positive :
  (0 <? heatCapacity L (T_1_init cfg) (m_1 cfg)) = true.
Hypothesis Cp2_positive :
  (0 <? heatCapacity L (T_2_init cfg) (m_2 cfg)) = true.
Hypothesis T1_positive : (0 <? T_1_init cfg) = true.
Hypothesis T2_positive : (0 <? T_2_init cfg) = true.

(** When the four heat flows vanish at the initial temperatures they
    vanish on every row, and the stage temperatures never change. *)
Lemma steady_run st :
  reachable L cfg f1 f2 st ->
  Forall (fun x => x = T_1_init cfg) (T_1 st) /\
  Forall (fun x => x = T_2_init cfg) (T_2 st).
Proof.
  intro Hr. induction Hr as [|st st' t Hr (IH1 & IH2) _ _ Hs].
  - simpl. split; constructor; auto.
  - pose proof (reachable_T_0 L cfg f1 f2 st Hr) as IH0.
    apply step_inv in Hs as (u & u0 & u1 & u2 & _ & H0 & H1 & H2 & ->).
    assert (E0 : u0 = T_0_init cfg).
    { destruct (last_opt_some _ _ H0) as [a E]. rewrite E in IH0.
      apply Forall_app in IH0 as [_ IH0]. now inversion IH0. }
    assert (E1 : u1 = T_1_init cfg).
    { destruct (last_opt_some _ _ H1) as [a E]. rewrite E in IH1.
      apply Forall_app in IH1 as [_ IH1]. now inversion IH1. }
    assert (E2 : u2 = T_2_init cfg).
    { destruct (last_opt_some _ _ H2) as [a E]. rewrite E in IH2.
      apply Forall_app in IH2 as [_ IH2]. now inversion IH2. }
    subst u0 u1 u2.
    destruct (steady_step u (T_0_init cfg) (T_1_init cfg) (T_2_init cfg) st
                lift1_zero lift2_zero rad1_zero rad2_zero dt_finite
                Cp1_positive Cp2_positive T1_positive T2_positive) as (-> & ->).
    split; apply Forall_app; split; auto.
Qed.

End Steady.

Lemma script_steady L cfg f1 f2 fuel st :
  interp2d L (T_PTC1 cfg) (T_PTC2 cfg) (Q_PTC1 cfg) = Ok f1 ->
  interp2d L (T_PTC1 cfg) (T_PTC2 cfg) (Q_PTC2 cfg) = Ok f2 ->
  zeroF (f1 (T_1_init cfg) (T_2_init cfg)) ->
  zeroF (f2 (T_1_init cfg) (T_2_init cfg)) ->
  zeroF (radiativePower L (T_0_init cfg) (T_1_init cfg)
                        (A_1 cfg) (eps1 cfg) (stefboltz cfg)) ->
  zeroF (radiativePower L (T_1_init cfg) (T_2_init cfg)
                        (A_2 cfg) (eps2 cfg) (stefboltz cfg)) ->
  is_finite (timestep cfg) = true ->
  (0 <? heatCapacity L (T_1_init cfg) (m_1 cfg)) = true ->
  (0 <? heatCapacity L (T_2_init cfg) (m_2 cfg)) = true ->
  (0 <? T_1_init cfg) = true -> (0 <? T_2_init cfg) = true ->
  observed (script L cfg fuel) st ->
  Forall (fun x => x = T_1_init cfg) (T_1 st) /\
  Forall (fun x => x = T_2_init cfg) (T_2 st).
Proof.
  intros E1 E2 Z1 Z2 R1 R2 Hdt C1 C2 P1 P2 H.
  destruct (script_observed L cfg fuel st H) as (g1 & g2 & G1 & G2 & Hr).
  rewrite E1 in G1. rewrite E2 in G2. injection G1 as <-. injection G2 as <-.
  exact (steady_run L cfg f1 f2 Z1 Z2 R1 R2 Hdt C1 C2 P1 P2 st Hr).
Qed.

(** X1: thermal equilibrium is kept.  When the reservoir and both stages
    start at one positive temperature [T], the capacity map gives no lift
    at [(T, T)], [T ** 4] and the radiative coefficients [A * eps * sigma]
    are finite, the time step is finite and both heat capacities at [T]
    are positive, every entry of the stage-1 and stage-2 series of every
    run is exactly [T], whatever the masses, areas and time step. *)
Theorem equilibrium_is_kept (L : Libs) (cfg : config)
    (f1 f2 : float -> float -> float) (fuel : nat) (st : state) :
  interp2d L (T_PTC1 cfg) (T_PTC2 cfg) (Q_PTC1 cfg) = Ok f1 ->
  interp2d L (T_PTC1 cfg) (T_PTC2 cfg) (Q_PTC2 cfg) = Ok f2 ->
  T_1_init cfg = T_0_init cfg ->
  T_2_init cfg = T_0_init cfg ->
  (0 <? T_0_init cfg) = true ->
  is_zero (f1 (T_0_init cfg) (T_0_init cfg)) = true ->
  is_zero (f2 (T_0_init cfg) (T_0_init cfg)) = true ->
  is_finite (pow L (T_0_init cfg) 4) = true ->
  is_finite (A_1 cfg * eps1 cfg * stefboltz cfg) = true ->
  is_finite (A_2 cfg * eps2 cfg * stefboltz cfg) = true ->
  is_finite (timestep cfg) = true ->
  (0 <? heatCapacity L (T_0_init cfg) (m_1 cfg)) = true ->
  (0 <? heatCapacity L (T_0_init cfg) (m_2 cfg)) = true ->
  observed (script L cfg fuel) st ->
  Forall (fun x => x = T_0_init cfg) (T_1 st) /\
  Forall (fun x => x = T_0_init cfg) (T_2 st).
Proof.
  intros E1 E2 Q1 Q2 P Z1 Z2 Hp K1 K2 Hdt C1 C2 H.
  pose proof (script_steady L cfg f1 f2 fuel st E1 E2) as S.
  rewrite Q1, Q2 in S. apply S; try assumption.
  - now apply is_zero_zeroF.
  - now apply is_zero_zeroF.
  - unfold radiativePower. rewrite (sub_self_finite _ Hp).
    apply zeroF_mul_r; [exact K1 | apply zeroF_zero].
  - unfold radiativePower. rewrite (sub_self_finite _ Hp).
    apply zeroF_mul_r; [exact K2 | apply zeroF_zero].
Qed.

Lemma equilibrium_is_kept_witness :
  Forall (fun x => x = 77) (T_1 cold_equilibrium_steps) /\
  Forall (fun x => x = 77) (T_2 cold_equilibrium_steps).
Proof.
  apply (equilibrium_is_kept Standin.libs cold_equilibrium_config
           (fun _ _ => 0) (fun _ _ => 0) 3 cold_equilibrium_steps);
    try reflexivity; try (vm_compute; reflexivity).
  right. vm_compute. reflexivity.
Defined.

(** X2: no spurious energy.  With emissivity 0 on both radiative links
    and no lift from the capacity map at the initial stage temperatures
    (areas, Stefan-Boltzmann constant, time step and the two differences
    of fourth powers finite, heat capacities and stage temperatures
    positive), every entry of the stage-1 series is the initial stage-1
    temperature and every entry of the stage-2 series the initial stage-2
    temperature, for runs of any length. *)
Theorem insulated_stages_are_constant (L : Libs) (cfg : config)
    (f1 f2 : float -> float -> float) (fuel : nat) (st : state) :
  interp2d L (T_PTC1 cfg) (T_PTC2 cfg) (Q_PTC1 cfg) = Ok f1 ->
  interp2d L (T_PTC1 cfg) (T_PTC2 cfg) (Q_PTC2 cfg) = Ok f2 ->
  is_zero (eps1 cfg) = true -> is_zero (eps2 cfg) = true ->
  is_zero (f1 (T_1_init cfg) (T_2_init cfg)) = true ->
  is_zero (f2 (T_1_init cfg) (T_2_init cfg)) = true ->
  is_finite (A_1 cfg) = true -> is_finite (A_2 cfg) = true ->
  is_finite (stefboltz cfg) = true ->
  is_finite (pow L (T_0_init cfg) 4 - pow L (T_1_init cfg) 4) = true ->
  is_finite (pow L (T_1_init cfg) 4 - pow L (T_2_init cfg) 4) = true ->
  is_finite (timestep cfg) = true ->
  (0 <? heatCapacity L (T_1_init cfg) (m_1 cfg)) = true ->
  (0 <? heatCapacity L (T_2_init cfg) (m_2 cfg)) = true ->
  (0 <? T_1_init cfg) = true -> (0 <? T_2_init cfg) = true ->
  observed (script L cfg fuel) st ->
  Forall (fun x => x = T_1_init cfg) (T_1 st) /\
  Forall (fun x => x = T_2_init cfg) (T_2 st).
Proof.
  intros E1 E2 e1 e2 Z1 Z2 a1 a2 Hs d1 d2 Hdt C1 C2 P1 P2 H.
  apply (script_steady L cfg f1 f2 fuel st E1 E2); try assumption;
    try (now apply is_zero_zeroF); unfold radiativePower.
  - apply zeroF_mul_l; [|exact d1]. apply zeroF_mul_l; [|exact Hs].
    apply zeroF_mul_r; [exact a1 | now apply is_zero_zeroF].
  - apply zeroF_mul_l; [|exact d2]. apply zeroF_mul_l; [|exact Hs].
    apply zeroF_mul_r; [exact a2 | now apply is_zero_zeroF].
Qed.

Lemma insulated_stages_are_constant_witness :
  Forall (fun x => x = 200) (T_1 insulated_steps) /\
  Forall (fun x => x = 100) (T_2 insulated_steps).
Proof.
  apply (insulated_stages_are_constant Standin.libs insulated_config
           (fun _ _ => 0) (fun _ _ => 0) 3 insulated_steps);
    try reflexivity; try (vm_compute; reflexivity).
  right. vm_compute. reflexivity.
Defined.

(** ** Edge values of the step *)

Lemma zero_mass_capacity (c m : float) :
  is_finite c = true -> is_zero m = true -> zeroF (c * m).
Proof. intros Hc Hm. apply zeroF_mul_r; [exact Hc | now apply is_zero_zeroF]. Qed.

(** X3: division by a zero heat capacity is not guarded.  When a stage
    has mass 0 and its specific heat is finite, the temperature the step
    appends for that stage is NaN or an infinity, whatever the heat flows
    and the previous temperature are. *)
Theorem zero_mass_gives_non_finite_temperature (L : Libs) (cfg : config)
    (f1 f2 : float -> float -> float) (st : state) (t t0 t1 t2 : float) :
  last_opt (globaltime st) = Some t ->
  last_opt (T_0 st) = Some t0 ->
  last_opt (T_1 st) = Some t1 ->
  last_opt (T_2 st) = Some t2 ->
  exists st' v1 v2,
    step L cfg f1 f2 st = Ok (tt, st') /\
    last_opt (T_1 st') = Some v1 /\ last_opt (T_2 st') = Some v2 /\
    (is_zero (m_1 cfg) = true -> is_finite (specificHeat L t1) = true ->
     is_finite v1 = false) /\
    (is_zero (m_2 cfg) = true -> is_finite (specificHeat L t2) = true ->
     is_finite v2 = false).
Proof.
  intros Ht H0 H1 H2.
  exists (advance L cfg f1 f2 t t0 t1 t2 st).
  eexists. eexists.
  split; [apply step_ok; assumption|].
  unfold advance; cbn [T_1 T_2].
  split; [apply last_opt_app|]. split; [apply last_opt_app|].
  split; intros Hm Hc; apply not_finite_intro; apply add_nonfinite;
    apply div_zeroF_nonfinite; unfold heatCapacity;
    apply zero_mass_capacity; assumption.
Qed.

Lemma zero_mass_gives_non_finite_temperature_witness :
  exists st' v1,
    step Standin.libs massless_config (fun _ _ => 0) (fun _ _ => 0)
         (init massless_config) = Ok (tt, st') /\
    last_opt (T_1 st') = Some v1 /\ is_finite v1 = false.
Proof.
  destruct (zero_mass_gives_non_finite_temperature Standin.libs massless_config
              (fun _ _ => 0) (fun _ _ => 0) (init massless_config)
              0 300 300 300 eq_refl eq_refl eq_refl eq_refl)
    as (st' & v1 & v2 & Hs & H1 & _ & Hm & _).
  exists st', v1. split; [exact Hs|]. split; [exact H1|].
  apply Hm; vm_compute; reflexivity.
Defined.

(** X4: 0 K is absorbing for stage 1.  With numpy's values at the edge
    of the domain ([log10 0 = -inf], the powers of [-inf],
    [10 ** inf = inf]), a positive stage-1 mass and a finite net energy
    for the step, a stage 1 at exactly 0 K is at exactly 0 K after the
    step: the infinite heat capacity swallows the energy. *)
Theorem zero_kelvin_is_absorbing (L : Libs) (cfg : config)
    (f1 f2 : float -> float -> float) (st : state) (t t0 t2 : float) :
  last_opt (globaltime st) = Some t ->
  last_opt (T_0 st) = Some t0 ->
  last_opt (T_1 st) = Some 0 ->
  last_opt (T_2 st) = Some t2 ->
  numpy_special_values L ->
  (0 <? m_1 cfg) = true ->
  is_finite
    (- (f1 0 t2 * timestep cfg)
     + radiativePower L t0 0 (A_1 cfg) (eps1 cfg) (stefboltz cfg) * timestep cfg
     - radiativePower L 0 t2 (A_2 cfg) (eps2 cfg) (stefboltz cfg) * timestep cfg)
    = true ->
  exists st',
    step L cfg f1 f2 st = Ok (tt, st') /\ T_1 st' = T_1 st ++ [0].
Proof.
  intros Ht H0 H1 H2 Hnp Hm Hnum.
  exists (advance L cfg f1 f2 t t0 0 t2 st).
  split; [apply step_ok; assumption|].
  unfold advance; cbn [T_1]. f_equal. f_equal.
  unfold heatCapacity.
  rewrite (specificHeat_zero L Hnp), (infinity_mul_positive _ Hm).
  apply zero_add_zeroF. apply div_infinity_zeroF. exact Hnum.
Qed.

Lemma zero_kelvin_is_absorbing_witness :
  exists st',
    step Standin.libs zero_kelvin_config (fun _ _ => 0) (fun _ _ => 0)
         (init zero_kelvin_config) = Ok (tt, st') /\
    T_1 st' = [0; 0].
Proof.
  apply (zero_kelvin_is_absorbing Standin.libs zero_kelvin_config
           (fun _ _ => 0) (fun _ _ => 0) (init zero_kelvin_config) 0 300 300);
    try reflexivity; try (vm_compute; reflexivity).
  exact standin_special_values.
Defined.

(** ** The loop at its limits *)

Lemma zero_timestep_never_finishes_witness :
  exists st, script Standin.libs frozen_clock_config 25 = Unfinished st.
Proof.
  apply (zero_timestep_never_finishes Standin.libs frozen_clock_config
           (fun _ _ => 0) (fun _ _ => 0) 25); reflexivity.
Defined.

Lemma reference_run_terminates_witness :
  exists st u,
    script Standin.libs reference_config (N.to_nat 180000) = Finished st /\
    N.of_nat (length (globaltime st)) = 180001%N /\
    last_opt (globaltime st) = Some u /\ (u <? 18000) = false.
Proof.
  exact (reference_run_terminates Standin.libs (fun _ _ => 0) (fun _ _ => 0)
           eq_refl eq_refl).
Defined.

(** ** What is plotted *)

(** X7: the seven series handed to [plt.plot] are index-aligned with the
    time axis in hours: after any run, [globaltime / 3600] has as many
    entries as each of the three temperature series and the four heat-flow
    records, and it starts at 0 h. *)
Theorem plotted_series_aligned (L : Libs) (cfg : config) (fuel : nat) (st : state) :
  observed (script L cfg fuel) st ->
  hd_error (hours st) = Some 0 /\
  length (hours st) = length (T_0 st) /\
  length (hours st) = length (T_1 st) /\
  length (hours st) = length (T_2 st) /\
  length (hours st) = length (Qdot1_record st) /\
  length (hours st) = length (Qdot2_record st) /\
  length (hours st) = length (QRdot1_record st) /\
  length (hours st) = length (QRdot2_record st).
Proof.
  intro H. destruct (script_observed L cfg fuel st H) as (f1 & f2 & _ & _ & Hr).
  destruct (reachable_heads L cfg f1 f2 st Hr) as (Hh & _).
  destruct (reachable_lengths L cfg f1 f2 st Hr)
    as (n & Lg & L0 & L1 & L2 & La & Lb & Lc & Ld).
  unfold hours. rewrite length_map, Lg, L0, L1, L2, La, Lb, Lc, Ld.
  split; [|repeat split].
  destruct (globaltime st) as [|x g]; [discriminate Hh|].
  injection Hh as ->. reflexivity.
Qed.

Lemma plotted_series_aligned_witness :
  hd_error (hours three_steps) = Some 0 /\
  length (hours three_steps) = length (T_0 three_steps) /\
  length (hours three_steps) = length (T_1 three_steps) /\
  length (hours three_steps) = length (T_2 three_steps) /\
  length (hours three_steps) = length (Qdot1_record three_steps) /\
  length (hours three_steps) = length (Qdot2_record three_steps) /\
  length (hours three_steps) = length (QRdot1_record three_steps) /\
  length (hours three_steps) = length (QRdot2_record three_steps).
Proof.
  apply (plotted_series_aligned Standin.libs scenario_config 3 three_steps).
  right. vm_compute. reflexivity.
Defined.

(** ** The clock and the physics *)

(** X8: the thermal model never influences the clock.  Two runs with the
    same time step and end time, whatever their libraries, capacity
    samples, masses, areas, emissivities and temperatures (even NaN or
    infinite ones), have the same time axis after the same number of
    iterations, and either both have left the loop or both are still in
    it. *)
Theorem clock_ignores_physics (L L' : Libs) (cfg cfg' : config)
    (f1 f2 g1 g2 : float -> float -> float) (fuel : nat) :
  interp2d L (T_PTC1 cfg) (T_PTC2 cfg) (Q_PTC1 cfg) = Ok f1 ->
  interp2d L (T_PTC1 cfg) (T_PTC2 cfg) (Q_PTC2 cfg) = Ok f2 ->
  interp2d L' (T_PTC1 cfg') (T_PTC2 cfg') (Q_PTC1 cfg') = Ok g1 ->
  interp2d L' (T_PTC1 cfg') (T_PTC2 cfg') (Q_PTC2 cfg') = Ok g2 ->
  timestep cfg = timestep cfg' ->
  endtime cfg = endtime cfg' ->
  exists st st',
    globaltime st = globaltime st' /\
    ((script L cfg fuel = Finished st /\ script L' cfg' fuel = Finished st') \/
     (script L cfg fuel = Unfinished st /\ script L' cfg' fuel = Unfinished st')).
Proof.
  intros E1 E2 G1 G2 Hdt Hend.
  pose proof (script_count L cfg f1 f2 fuel E1 E2) as H.
  pose proof (script_count L' cfg' g1 g2 fuel G1 G2) as H'.
  rewrite <- Hdt, <- Hend in H'.
  destruct (count_steps (timestep cfg) (endtime cfg) fuel 0) as [n|];
    destruct H as (st & u & E & _ & Ha & _);
    destruct H' as (st' & u' & E' & _ & Ha' & _);
    exists st, st'; (split; [congruence|]); [left | right]; split; assumption.
Qed.

Lemma clock_ignores_physics_witness :
  exists st st',
    globaltime st = globaltime st' /\
    ((script Standin.libs scenario_config 200 = Finished st /\
      script Standin.libs zero_kelvin_config 200 = Finished st') \/
     (script Standin.libs scenario_config 200 = Unfinished st /\
      script Standin.libs zero_kelvin_config 200 = Unfinished st')).
Proof.
  exact (clock_ignores_physics Standin.libs Standin.libs
           scenario_config zero_kelvin_config
           (fun _ _ => 0) (fun _ _ => 0) (fun _ _ => 0) (fun _ _ => 0) 200
           eq_refl eq_refl eq_refl eq_refl eq_refl eq_refl).
Defined.
